(** * ShiftedBeta: the shifted-beta-geometric retention model

    A shallow embedding of [ShiftedBetaSurvival/ShiftedBeta.py] (class
    [ShiftedBeta]) and the properties of its indicator map, retention
    recursion, likelihood and multi-start fit.

    Conventions of the embedding
    - Python exceptions are values: a computation returns [Ok v] or
      [Raise name], [name] being the exception class name.
    - The code is written once over an interface [Number] of the arithmetic
      the source applies to its floats ([+ - * /], unary minus, the
      conversion of an [int], [<]).  Two instances are used: exact rationals
      [Q] (rounding idealised away) and IEEE binary64 ([PrimFloat.float]).
    - [numpy.exp], [numpy.log], [numpy.random.random] and
      [scipy.optimize.minimize] are external: they are parameters. *)

From Stdlib Require Import ZArith QArith Lqa Lia String Floats.
From stdpp Require Import base option list gmap strings sorting.

Local Open Scope Z_scope.

(** ** Python run time *)

Definition exn := string.

Inductive result (A : Type) : Type :=
  | Ok (a : A)
  | Raise (e : exn).
Arguments Ok {A} a.
Arguments Raise {A} e.

#[global] Instance result_ret : MRet result := @Ok.
#[global] Instance result_bind : MBind result := fun A B f m =>
  match m with Ok a => f a | Raise e => Raise e end.

(** [for x in xs: st = body(st, x)], stopping at the first exception. *)
Fixpoint for_each {St X : Type} (body : St -> X -> result St)
    (xs : list X) (st : St) : result St :=
  match xs with
  | [] => Ok st
  | x :: xs' => st' ← body st x; for_each body xs' st'
  end.

(** [range(lo, hi)] *)
Definition py_range (lo hi : Z) : list Z :=
  map (fun i : nat => lo + Z.of_nat i) (seq 0 (Z.to_nat (hi - lo))).

Definition len {A : Type} (l : list A) : Z := Z.of_nat (length l).

(** [l[i]]: a negative index counts from the end; outside the list it is an
    [IndexError]. *)
Definition py_getitem {A : Type} (l : list A) (i : Z) : result A :=
  let j := if i <? 0 then i + len l else i in
  if (j <? 0) || (len l <=? j) then Raise "IndexError"
  else match l !! Z.to_nat j with
       | Some a => Ok a
       | None => Raise "IndexError"
       end.

(** [l[i] = v], same index rule. *)
Definition py_setitem {A : Type} (l : list A) (i : Z) (v : A) : result (list A) :=
  let j := if i <? 0 then i + len l else i in
  if (j <? 0) || (len l <=? j) then Raise "IndexError"
  else Ok (<[Z.to_nat j := v]> l).

(** One bound of a slice: negative counts from the end, then clamped. *)
Definition slice_bound {A : Type} (l : list A) (i : Z) : nat :=
  let j := if i <? 0 then i + len l else i in
  Z.to_nat (Z.min (Z.max j 0) (len l)).

(** [l[lo:hi]] *)
Definition py_slice {A : Type} (l : list A) (lo hi : Z) : list A :=
  let a := slice_bound l lo in
  let b := slice_bound l hi in
  take (b - a) (drop a l).

(** [l[:hi]] and [l[lo:]] *)
Definition py_slice_to {A : Type} (l : list A) (hi : Z) : list A :=
  py_slice l 0 hi.
Definition py_slice_from {A : Type} (l : list A) (lo : Z) : list A :=
  drop (slice_bound l lo) l.

(** ** Numbers

    The operations the source applies to its floats.  [fdiv] is total, as
    division is on the [numpy.float64] values that [_logp] hands to the
    recursion (a zero divisor gives [inf] or [nan] there, and 0 in [Q]);
    [of_int] is the conversion Python makes when an [int] meets a float. *)

Class Number (F : Type) : Type := {
  fadd : F -> F -> F;
  fsub : F -> F -> F;
  fmul : F -> F -> F;
  fdiv : F -> F -> F;
  fneg : F -> F;
  of_int : Z -> F;
  fltb : F -> F -> bool
}.

Declare Scope num_scope.
Delimit Scope num_scope with num.
Infix "+" := fadd : num_scope.
Infix "-" := fsub : num_scope.
Infix "*" := fmul : num_scope.
Infix "/" := fdiv : num_scope.
Notation "- x" := (fneg x) : num_scope.

(** A list slot holds a float or Python's [None].  Arithmetic on [None] is a
    [TypeError]; so is [numpy.log(None)] (older numpy releases name it
    [AttributeError]; nothing below depends on the name). *)
Definition as_number {F : Type} (v : option F) : result F :=
  match v with
  | Some x => Ok x
  | None => Raise "TypeError"
  end.

(** Every slot of a list as a float. *)
Fixpoint as_numbers {F : Type} (l : list (option F)) : result (list F) :=
  match l with
  | [] => Ok []
  | v :: l' => x ← as_number v; r ← as_numbers l'; Ok (x :: r)
  end.

(** ** The retention recursion *)

Section Retention.
Context {F : Type} `{Number F}.

(** The factor of the loop body at period [t]. *)
Definition churn_ratio (alpha beta : F) (t : Z) : F :=
  ((beta + of_int t - of_int 2) / (alpha + beta + of_int t - of_int 1))%num.

(** One iteration of [for t in range(2, num_periods)]. *)
Definition retention_body (alpha beta : F)
    (st : list (option F) * list (option F)) (t : Z)
    : result (list (option F) * list (option F)) :=
  let '(p, s) := st in
  p_prev ← py_getitem p (t - 1) ≫= as_number;
  let pt := (churn_ratio alpha beta t * p_prev)%num in
  let p := p ++ [Some pt] in
  s_prev ← py_getitem s (t - 1) ≫= as_number;
  p_t ← py_getitem p t ≫= as_number;
  let s := s ++ [Some (s_prev - p_t)%num] in
  Ok (p, s).

(** The function as [_logp] calls it, on [numpy.float64] arguments (the
    results of [numpy.exp]): there [/] never raises, a zero divisor gives
    [inf] or [nan] with a warning.  The division is the total [fdiv], so
    this definition is the source's function for [numpy.float64] arguments,
    and for any numbers when no divisor is zero (in particular when
    [alpha, beta > 0]).  A direct call with Python scalars whose divisor is
    zero raises instead: that is [_recursive_retention_stats_raising]
    below. *)
Definition _recursive_retention_stats (alpha beta : F) (num_periods : Z)
    : result (list (option F) * list (option F)) :=
  let p := [None; Some (alpha / (alpha + beta))%num] in
  p1 ← py_getitem p 1 ≫= as_number;
  let s := [None; Some (of_int 1 - p1)%num] in
  for_each (retention_body alpha beta) (py_range 2 num_periods) (p, s).

(** The recurrence in closed form: [P_rec k] and [S_rec k] are the values
    at period [k + 1]. *)
Fixpoint P_rec (alpha beta : F) (k : nat) : F :=
  match k with
  | O => (alpha / (alpha + beta))%num
  | S k' => (churn_ratio alpha beta (2 + Z.of_nat k') * P_rec alpha beta k')%num
  end.

Fixpoint S_rec (alpha beta : F) (k : nat) : F :=
  match k with
  | O => (of_int 1 - P_rec alpha beta 0)%num
  | S k' => (S_rec alpha beta k' - P_rec alpha beta (S k'))%num
  end.

(** [[None, f 0, ..., f (k-1)]] *)
Definition table (f : nat -> F) (k : nat) : list (option F) :=
  None :: map (fun i => Some (f i)) (seq 0 k).
End Retention.

(** ** The retention recursion when division can raise

    [_recursive_retention_stats] is a static method and takes whatever
    numbers the caller has; its [/] is the division of their type.  On a
    Python [float], [int] or [Fraction] a zero divisor raises
    [ZeroDivisionError]; on a [numpy.float64] it does not.  [zero_divisor]
    says for which divisors [/] raises: [y == 0] for the Python scalars,
    none for [numpy.float64]. *)

Section RetentionRaising.
Context {F : Type} `{Number F}.
Variable zero_divisor : F -> bool.

(** [x / y] *)
Definition py_div (x y : F) : result F :=
  if zero_divisor y then Raise "ZeroDivisionError" else Ok (x / y)%num.

(** One iteration of [for t in range(2, num_periods)]; the quotient is
    evaluated before [p[t-1]] is read. *)
Definition retention_body_raising (alpha beta : F)
    (st : list (option F) * list (option F)) (t : Z)
    : result (list (option F) * list (option F)) :=
  let '(p, s) := st in
  ratio ← py_div (beta + of_int t - of_int 2)%num
                 (alpha + beta + of_int t - of_int 1)%num;
  p_prev ← py_getitem p (t - 1) ≫= as_number;
  let pt := (ratio * p_prev)%num in
  let p := p ++ [Some pt] in
  s_prev ← py_getitem s (t - 1) ≫= as_number;
  p_t ← py_getitem p t ≫= as_number;
  let s := s ++ [Some (s_prev - p_t)%num] in
  Ok (p, s).

Definition _recursive_retention_stats_raising (alpha beta : F) (num_periods : Z)
    : result (list (option F) * list (option F)) :=
  p1 ← py_div alpha (alpha + beta)%num;
  let p := [None; Some p1] in
  p1 ← py_getitem p 1 ≫= as_number;
  let s := [None; Some (of_int 1 - p1)%num] in
  for_each (retention_body_raising alpha beta) (py_range 2 num_periods) (p, s).
End RetentionRaising.

(** ** The model object *)

(** One cohort: the [active] and the [lost] counts per period. *)
Definition cohort : Type := list Z * list Z.

Record ShiftedBeta (F : Type) : Type := {
  data : gmap string (list cohort);
  categories : list string;
  n_cats : Z;
  imap : gmap string (list bool);
  alpha : gmap string F;
  beta : gmap string F;
  opt : option (list F)
}.
Arguments data {F} _.
Arguments categories {F} _.
Arguments n_cats {F} _.
Arguments imap {F} _.
Arguments alpha {F} _.
Arguments beta {F} _.
Arguments opt {F} _.

Definition set_imap {F} (self : ShiftedBeta F) (v : gmap string (list bool)) :=
  {| data := data self; categories := categories self; n_cats := n_cats self;
     imap := v; alpha := alpha self; beta := beta self; opt := opt self |}.
Definition set_alpha {F} (self : ShiftedBeta F) (v : gmap string F) :=
  {| data := data self; categories := categories self; n_cats := n_cats self;
     imap := imap self; alpha := v; beta := beta self; opt := opt self |}.
Definition set_beta {F} (self : ShiftedBeta F) (v : gmap string F) :=
  {| data := data self; categories := categories self; n_cats := n_cats self;
     imap := imap self; alpha := alpha self; beta := v; opt := opt self |}.
Definition set_opt {F} (self : ShiftedBeta F) (v : option (list F)) :=
  {| data := data self; categories := categories self; n_cats := n_cats self;
     imap := imap self; alpha := alpha self; beta := beta self; opt := v |}.

(** [d[k]] on a dict *)
Definition dict_getitem {V : Type} (d : gmap string V) (k : string) : result V :=
  match d !! k with
  | Some v => Ok v
  | None => Raise "KeyError"
  end.

(** [sorted(keys)]: strings in lexicographic order. *)
Definition string_le (a b : string) : Prop := String.leb a b = true.
#[global] Instance string_le_dec (a b : string) : Decision (string_le a b).
Proof. unfold string_le. apply _. Defined.
Definition sorted (l : list string) : list string := merge_sort string_le l.

(** [enumerate(l)] *)
Definition enumerate {A : Type} (l : list A) : list (Z * A) :=
  zip (map Z.of_nat (seq 0 (length l))) l.

(** [numpy.zeros(n, dtype=bool)] *)
Definition np_zeros_bool (n : Z) : result (list bool) :=
  if n <? 0 then Raise "ValueError" else Ok (replicate (Z.to_nat n) false).

(** ** indicator_map *)

(** The body of [for i, category in enumerate(self.categories)]. *)
Definition indicator_body (n : Z) (m : gmap string (list bool))
    (ic : Z * string) : result (gmap string (list bool)) :=
  let '(i, category) := ic in
  bool_ind ← np_zeros_bool n;
  bool_ind ← py_setitem bool_ind 0 true;
  bool_ind ← py_setitem bool_ind i true;
  Ok (<[category := bool_ind]> m).

Definition indicator_map {F} (self : ShiftedBeta F) : result (ShiftedBeta F) :=
  m ← for_each (indicator_body (n_cats self)) (enumerate (categories self))
        (imap self);
  Ok (set_imap self m).

Definition __init__ {F} (d : gmap string (list cohort)) : result (ShiftedBeta F) :=
  indicator_map
    {| data := d;
       categories := sorted (map_to_list d).*1;
       n_cats := Z.of_nat (size d);
       imap := ∅; alpha := ∅; beta := ∅; opt := None |}.

(** The ordinal index of a category in the category list. *)
Fixpoint index_of (name : string) (l : list string) : nat :=
  match l with
  | [] => 0
  | c :: l' => if decide (c = name) then 0 else S (index_of name l')
  end.

(** The number of [True] entries of a boolean vector. *)
Fixpoint count_true (v : list bool) : nat :=
  match v with
  | [] => 0
  | b :: v' => ((if b then 1 else 0) + count_true v')%nat
  end.

(** ** The likelihood *)

Section Likelihood.
Context {F : Type} `{Number F}.
(** [numpy.exp] and [numpy.log] on one float *)
Variables (exp log : F -> F).

(** [arr.sum()]: numpy adds the entries from the first one on (in this
    order for fewer than 8 entries, which is all a mask of one or two
    entries selects); the empty sum is 0. *)
Definition np_sum (l : list F) : F :=
  match l with
  | [] => of_int 0
  | x :: xs => fold_left fadd xs x
  end.

(** [arr[mask]] with a boolean mask of the array's length. *)
Fixpoint mask_select (arr : list F) (mask : list bool) : list F :=
  match arr, mask with
  | x :: arr', b :: mask' =>
      if b then x :: mask_select arr' mask' else mask_select arr' mask'
  | _, _ => []
  end.
Definition np_mask (arr : list F) (mask : list bool) : result (list F) :=
  if decide (length arr = length mask) then Ok (mask_select arr mask)
  else Raise "IndexError".

(** [exp(coeffs[bool_ind].sum())] *)
Definition combine (coeffs : list F) (bool_ind : list bool) : result F :=
  sel ← np_mask coeffs bool_ind;
  Ok (exp (np_sum sel)).

(** [numpy.log] of a Python list: every slot has to hold a float. *)
Definition np_log_list (l : list (option F)) : result (list F) :=
  xs ← as_numbers l;
  Ok (map log xs).

(** [floats * counts] with numpy's broadcasting of one-dimensional
    operands: equal lengths go entry by entry, a single entry is repeated,
    anything else is a [ValueError]. *)
Definition np_mul (xs : list F) (ns : list Z) : result (list F) :=
  if decide (length xs = length ns)
  then Ok (zip_with (fun x n => (x * of_int n)%num) xs ns)
  else match xs, ns with
       | [x], _ => Ok (map (fun n => (x * of_int n)%num) ns)
       | _, [n] => Ok (map (fun x => (x * of_int n)%num) xs)
       | _, _ => Raise "ValueError"
       end.

(** The builtin [sum], which starts from the int 0. *)
Definition py_sum (l : list F) : F := fold_left fadd l (of_int 0).

(** What one cohort adds to [log_like]: [sum(died) + still_active]. *)
Definition cohort_loglike (alpha_comb beta_comb : F) (val : cohort) : result F :=
  let '(active, lost) := val in
  let length := len active in
  '(pt, sf) ← _recursive_retention_stats alpha_comb beta_comb length;
  logs ← np_log_list (py_slice pt 1 length);
  died ← np_mul logs (py_slice lost 1 length);
  s_last ← py_getitem sf (length - 1) ≫= as_number;
  a_last ← py_getitem active (length - 1);
  let still_active := (log s_last * of_int a_last)%num in
  Ok (py_sum died + still_active)%num.

(** The body of [for i, val in enumerate(data)]. *)
Definition cohort_body (alpha_comb beta_comb : F) (log_like : F) (val : cohort)
    : result F :=
  term ← cohort_loglike alpha_comb beta_comb val;
  Ok (log_like + term)%num.

(** The body of [for name, data in self.data.iteritems()]. *)
Definition category_body (self : ShiftedBeta F) (alpha beta : list F)
    (log_like : F) (item : string * list cohort) : result F :=
  let '(name, cohorts) := item in
  bool_ind ← dict_getitem (imap self) name;
  alpha_comb ← combine alpha bool_ind;
  beta_comb ← combine beta bool_ind;
  for_each (cohort_body alpha_comb beta_comb) cohorts log_like.

Definition _logp (self : ShiftedBeta F) (alpha beta : list F) : result F :=
  log_like ← for_each (category_body self alpha beta)
               (map_to_list (data self)) (of_int 0);
  Ok (- log_like)%num.

(** *** The likelihood in the specification's words

    These follow the specification, for comparison with [_logp]: the
    period values are those of the recurrence ([P[t]] is
    [P_rec alpha beta (t - 1)]), the sums run over periods, cohorts and
    categories. *)

(** The sum over [t = 1 .. length - 1] of [log(P[t]) * lost[t]]. *)
Definition died_sum (a b : F) (lost : list Z) (length : nat) : F :=
  fold_left
    (fun acc t => (acc + log (P_rec a b (t - 1)) * of_int (nth t lost 0))%num)
    (seq 1 (length - 1)) (of_int 0).

(** [log(S[length - 1]) * active[length - 1]] *)
Definition still_active_term (a b : F) (active : list Z) (length : nat) : F :=
  (log (S_rec a b (length - 2)) * of_int (nth (length - 1) active 0))%num.

Definition cohort_term (a b : F) (val : cohort) : F :=
  let '(active, lost) := val in
  (died_sum a b lost (length active)
   + still_active_term a b active (length active))%num.

(** The value [exp(coeffs[bool_ind].sum())] of the code, for a mask of the
    array's length. *)
Definition category_parameter (coeffs : list F) (bool_ind : list bool) : F :=
  exp (np_sum (mask_select coeffs bool_ind)).

(** The sum over every category and every cohort of it, the first
    [n_cats] coefficients being those of alpha, the rest those of beta. *)
Definition loglike_sum (self : ShiftedBeta F) (p : list F) : F :=
  fold_left
    (fun acc (item : string * list cohort) =>
       let bool_ind := default [] (imap self !! item.1) in
       let a := category_parameter (take (Z.to_nat (n_cats self)) p) bool_ind in
       let b := category_parameter (drop (Z.to_nat (n_cats self)) p) bool_ind in
       fold_left (fun acc val => (acc + cohort_term a b val)%num) item.2 acc)
    (map_to_list (data self)) (of_int 0).

(** *** The reconstruction in the specification's words

    The indicator vector of the category at ordinal index [i] of the
    category list selects the intercept, entry 0, and the category's own
    entry [i] (the same entry when [i = 0]).  The alpha part of the
    coefficient vector [p] are its first [n_cats] entries, it starts at
    entry 0; the beta part are the last [n_cats], it starts at entry
    [n_cats].  Nothing here goes through the code's masks or slices. *)

(** The sum of the entries selected, for the category at index [i], in
    the part of [p] that starts at entry [start]. *)
Definition selected_sum (p : list F) (start i : nat) : F :=
  if decide (i = 0%nat) then nth start p (of_int 0)
  else (nth start p (of_int 0) + nth (start + i) p (of_int 0))%num.

(** The sum over every category of the dataset and every cohort of it of
    the cohort's term, alpha and beta of the category being [exp] of its
    selected sums.  It is a function of the dataset and of the vector
    alone: the index of a category is its position among the sorted
    categories, and [n_cats] is the number of categories. *)
Definition loglike_by_category (d : gmap string (list cohort)) (p : list F) : F :=
  fold_left
    (fun acc (item : string * list cohort) =>
       let i := index_of item.1 (sorted (map_to_list d).*1) in
       let a := exp (selected_sum p 0 i) in
       let b := exp (selected_sum p (size d) i) in
       fold_left (fun acc val => (acc + cohort_term a b val)%num) item.2 acc)
    (map_to_list d) (of_int 0).
End Likelihood.

(** A cohort the likelihood is meant for: at least two periods, and a
    [lost] series that covers them. *)
Definition cohort_ok (val : cohort) : bool :=
  (2 <=? len val.1) && (len val.1 <=? len val.2).

Definition dataset_ok (d : gmap string (list cohort)) : bool :=
  forallb (fun item : string * list cohort => forallb cohort_ok item.2)
    (map_to_list d).

(** ** Methods that mutate the object

    An exception does not undo the assignments made before it, so a method
    returns the object it leaves behind together with its outcome. *)

Definition action (St A : Type) : Type := St -> result A * St.

Definition ret_ {St A} (a : A) : action St A := fun st => (Ok a, st).
Definition bind_ {St A B} (m : action St A) (k : A -> action St B) : action St B :=
  fun st => match m st with
            | (Ok a, st') => k a st'
            | (Raise e, st') => (Raise e, st')
            end.
Definition lift {St A} (r : result A) : action St A := fun st => (r, st).
Definition get {St} : action St St := fun st => (Ok st, st).
Definition modify {St} (f : St -> St) : action St unit := fun st => (Ok tt, f st).

Notation "'do' x <- m ; k" := (bind_ m (fun x => k))
  (at level 10, x name, m at level 100, k at level 200).
Notation "'do_' m ; k" := (bind_ m (fun _ => k))
  (at level 10, m at level 100, k at level 200).

(** A [for] loop whose body updates the object and a local variable. *)
Fixpoint for_acc {St X Acc : Type} (body : Acc -> X -> action St Acc)
    (xs : list X) (acc : Acc) : action St Acc :=
  match xs with
  | [] => ret_ acc
  | x :: xs' => do acc' <- body acc x; for_acc body xs' acc'
  end.

(** [scipy.optimize.OptimizeResult]: the fields the fit reads, and the
    convergence flag. *)
Module OptimizeResult.
Record t (F : Type) : Type := make { x : list F; fun_ : F; success : bool }.
Arguments make {F} _ _ _.
Arguments x {F} _.
Arguments fun_ {F} _.
Arguments success {F} _.
End OptimizeResult.

(** ** fit *)

Section Fitter.
Context {F : Type} `{Number F}.
Variables (exp log : F -> F).
(** The draws of [numpy.random.random], in the order they are made. *)
Variable rnd : nat -> F.
(** [scipy.optimize.minimize(objective, guess, bounds=...)] with every
    bound [(None, None)]; an exception of the objective passes through. *)
Variable minimize :
  (list F -> result F) -> list F -> result (OptimizeResult.t F).

(** [numpy.random.random((rows, cols))] *)
Definition np_random_random (rows cols : Z) : result (list (list F)) :=
  if (rows <? 0) || (cols <? 0) then Raise "ValueError"
  else Ok (map (fun i : nat =>
                  map (fun j : nat => rnd (i * Z.to_nat cols + j)%nat)
                      (seq 0 (Z.to_nat cols)))
               (seq 0 (Z.to_nat rows))).

(** [4 * numpy.random.random((restarts, 2 * self.n_cats)) - 3] *)
Definition initial_guesses (restarts n : Z) : result (list (list F)) :=
  r ← np_random_random restarts (2 * n);
  Ok (map (map (fun u => (of_int 4 * u - of_int 3)%num)) r).

(** [new_opt > optimal] compares the [OptimizeResult] object itself, a
    [dict], with [optimal], a number (line 240).  The source is Python 2
    ([iteritems]); there an ordering comparison between a number and an
    object that is not a number does not look at the values: the number is
    the smaller one.  So the test holds for every result and every
    [optimal]. *)
Definition result_gt_number (new_opt : OptimizeResult.t F) (optimal : F) : bool :=
  true.

(** The objective handed to the minimizer:
    [lambda p: self._logp(p[:self.n_cats], p[self.n_cats:])]. *)
Definition objective (self : ShiftedBeta F) (p : list F) : result F :=
  _logp exp log self (py_slice_to p (n_cats self)) (py_slice_from p (n_cats self)).

(** Lines 234-242: the two [if]s after one minimization. *)
Definition keep_best (optimal : option F) (new_opt : OptimizeResult.t F)
    : action (ShiftedBeta F) (option F) :=
  do optimal <-
    match optimal with
    | None =>
        do_ modify (fun self => set_opt self (Some (OptimizeResult.x new_opt)));
        ret_ (OptimizeResult.fun_ new_opt)
    | Some o => ret_ o
    end;
  if result_gt_number new_opt optimal then
    do_ modify (fun self => set_opt self (Some (OptimizeResult.x new_opt)));
    ret_ (Some (OptimizeResult.fun_ new_opt))
  else ret_ (Some optimal).

(** The body of [for guess in initial_guesses]. *)
Definition restart_body (optimal : option F) (guess : list F)
    : action (ShiftedBeta F) (option F) :=
  do self <- get;
  do new_opt <- lift (minimize (objective self) guess);
  keep_best optimal new_opt.

(** [None[...]] is a [TypeError]. *)
Definition subscriptable {A} (v : option A) : result A :=
  match v with
  | Some a => Ok a
  | None => Raise "TypeError"
  end.

(** The body of [for name in self.categories]. *)
Definition publish_body (_ : unit) (name : string) : action (ShiftedBeta F) unit :=
  do self <- get;
  do bool_ind <- lift (dict_getitem (imap self) name);
  do o <- lift (subscriptable (opt self));
  do a <- lift (combine exp (py_slice_to o (n_cats self)) bool_ind);
  do_ modify (fun self => set_alpha self (<[name := a]> (alpha self)));
  do self <- get;
  do o <- lift (subscriptable (opt self));
  do b <- lift (combine exp (py_slice_from o (n_cats self)) bool_ind);
  modify (fun self => set_beta self (<[name := b]> (beta self))).

Definition fit (restarts : Z) : action (ShiftedBeta F) unit :=
  do self <- get;
  do guesses <- lift (initial_guesses restarts (n_cats self));
  do optimal <- for_acc restart_body guesses None;
  do self <- get;
  for_acc publish_body (categories self) tt.

(** *** The selection the specification asks for

    These follow the specification's words, for comparison with [fit]:
    the run with the lowest objective value wins, the first one on a
    tie. *)
Fixpoint lowest_first (best : OptimizeResult.t F) (runs : list (OptimizeResult.t F))
    : OptimizeResult.t F :=
  match runs with
  | [] => best
  | r :: runs' =>
      if fltb (OptimizeResult.fun_ r) (OptimizeResult.fun_ best)
      then lowest_first r runs'
      else lowest_first best runs'
  end.
End Fitter.

(** ** The two number systems *)

(** Exact rationals: the arithmetic of the source without rounding. *)
#[global] Instance Q_number : Number Q := {|
  fadd := Qplus; fsub := Qminus; fmul := Qmult; fdiv := Qdiv; fneg := Qopp;
  of_int := inject_Z;
  fltb := fun a b => match Qcompare a b with Lt => true | _ => false end
|}.

(** [float(n)]: the binary64 nearest to the integer [n]. *)
Definition float_of_int (n : Z) : float :=
  SF2Prim (binary_normalize prec emax n 0 false).

(** IEEE binary64, the floats of Python and numpy. *)
#[global] Instance float_number : Number float := {|
  fadd := PrimFloat.add; fsub := PrimFloat.sub; fmul := PrimFloat.mul;
  fdiv := PrimFloat.div; fneg := PrimFloat.opp;
  of_int := float_of_int;
  fltb := PrimFloat.ltb
|}.

(** The divisors on which [/] raises [ZeroDivisionError]: for a Python
    [float] those equal to zero, of either sign; for an exact rational
    ([fractions.Fraction]) zero. *)
Definition float_is_zero (y : float) : bool := PrimFloat.eqb y 0%float.
Definition Q_is_zero (y : Q) : bool := Qeq_bool y 0%Q.

(** ** Sample data *)

(** Two categories with one cohort each; the first is scenario A of the
    specification. *)
Definition two_categories : gmap string (list cohort) :=
  <["a" := [([1000; 900; 820; 760], [0; 100; 80; 60])]]>
    (<["b" := [([1000; 850; 730], [0; 150; 120])]]> ∅).

(** One category whose only cohort has four periods and a [lost] series of
    three. *)
Definition lost_too_short : gmap string (list cohort) :=
  <["a" := [([100; 80; 60; 50], [0; 20; 20])]]> ∅.

(** One category whose only cohort has a single period. *)
Definition one_period_only : gmap string (list cohort) :=
  <["a" := [([10], [0])]]> ∅.

(** A minimizer that gives up where it starts and says so
    ([success = False]). *)
Definition gives_up (objective : list Q -> result Q) (guess : list Q)
    : result (OptimizeResult.t Q) :=
  Ok (OptimizeResult.make guess 0%Q false).

(** A minimizer whose reported objective value is the first coordinate of
    its starting point, where it stays. *)
Definition stays_put (objective : list Q -> result Q) (guess : list Q)
    : result (OptimizeResult.t Q) :=
  Ok (OptimizeResult.make guess (hd 0%Q guess) true).

(** Draws that grow: the [k]-th one is [k]. *)
Definition counting_draws (k : nat) : Q := inject_Z (Z.of_nat k).

(** One category, one cohort of three periods in which nobody leaves. *)
Definition nobody_lost : gmap string (list cohort) :=
  <["a" := [([10; 10; 10], [0; 0; 0])]]> ∅.

(** Stand-ins for [numpy.exp] and [numpy.log] on binary64 that agree with
    them where the examples evaluate them: [exp(0) = 1], [exp(-1000) = 0]
    (underflow), [log(0) = -inf] (numpy warns and returns it),
    [log(1) = 0]. *)
Definition exp_sample (x : float) : float :=
  if PrimFloat.eqb x 0%float then 1%float else 0%float.
Definition log_sample (x : float) : float :=
  if PrimFloat.eqb x 0%float then neg_infinity else 0%float.

(** ** The accessors *)


(** [get_params]: the dict with the keys [n_categories], [categories] and
    [imap]. *)
Module Params.
Record t : Type := make {
  n_categories : Z;
  categories : list string;
  imap : gmap string (list bool)
}.
End Params.

Definition get_params {F} (self : ShiftedBeta F) : Params.t :=
  Params.make (n_cats self) (categories self) (imap self).

(** The part of the object that is set up by the constructor: the dataset,
    the category list, [n_cats] and the indicator map. *)
Definition same_setup {F} (self self' : ShiftedBeta F) : Prop :=
  data self' = data self /\ categories self' = categories self /\
  n_cats self' = n_cats self /\ imap self' = imap self.

(** * Properties *)

(** ** Run-time lemmas *)

(** Decides a boolean comparison on [Z] whose outcome [lia] can settle. *)
Ltac zbool :=
  first [ apply Z.ltb_ge; lia | apply Z.ltb_lt; lia
        | apply Z.leb_gt; lia | apply Z.leb_le; lia ].

Lemma py_getitem_lookup {A : Type} (l : list A) (i : nat) (a : A) :
  l !! i = Some a -> py_getitem l (Z.of_nat i) = Ok a.
Proof.
  intros Hl. pose proof (lookup_lt_Some _ _ _ Hl) as Hlt.
  assert ((Z.of_nat i <? 0) = false) as E1 by zbool.
  assert ((Z.of_nat (length l) <=? Z.of_nat i) = false) as E2 by zbool.
  unfold py_getitem, len. cbv zeta.
  rewrite E1. cbv iota. rewrite E1, E2.
  cbn. rewrite Nat2Z.id, Hl. reflexivity.
Qed.

Lemma py_getitem_Ok {A : Type} (l : list A) (i : Z) (a : A) :
  0 <= i -> py_getitem l i = Ok a -> l !! Z.to_nat i = Some a.
Proof.
  intros Hi. assert ((i <? 0) = false) as E1 by zbool.
  unfold py_getitem. cbv zeta. rewrite E1. cbv iota. rewrite E1.
  destruct (false || (len l <=? i)); [discriminate|].
  destruct (l !! Z.to_nat i); [congruence|discriminate].
Qed.

Lemma py_setitem_Ok {A : Type} (l : list A) (i : Z) (v : A) :
  0 <= i < len l -> py_setitem l i v = Ok (<[Z.to_nat i := v]> l).
Proof.
  intros Hi. assert ((i <? 0) = false) as E1 by zbool.
  assert ((len l <=? i) = false) as E2 by zbool.
  unfold py_setitem. cbv zeta. rewrite E1. cbv iota. rewrite E1, E2. reflexivity.
Qed.

Lemma lookup_map {A B : Type} (f : A -> B) (l : list A) (i : nat) :
  map f l !! i = f <$> (l !! i).
Proof.
  revert i. induction l as [|a l IH]; intros [|i]; cbn; try reflexivity. apply IH.
Qed.

Lemma py_range_length (lo hi : Z) : length (py_range lo hi) = Z.to_nat (hi - lo).
Proof. unfold py_range. rewrite length_map, length_seq. reflexivity. Qed.

Lemma for_each_app {St X : Type} (body : St -> X -> result St) (xs ys : list X) (st : St) :
  for_each body (xs ++ ys) st = st' ← for_each body xs st; for_each body ys st'.
Proof.
  revert st. induction xs as [|x xs IH]; intros st; cbn; [reflexivity|].
  destruct (body st x) as [st'|e]; cbn; [apply IH|reflexivity].
Qed.

(** ** The retention recursion *)

Section RetentionFacts.
Context {F : Type} `{Number F}.
Variables (alpha beta : F).

Lemma table_length (f : nat -> F) (k : nat) : length (table f k) = S k.
Proof. unfold table. cbn. rewrite length_map, length_seq. reflexivity. Qed.

Lemma table_lookup_0 (f : nat -> F) (k : nat) : table f k !! 0%nat = Some None.
Proof. reflexivity. Qed.

Lemma table_lookup_S (f : nat -> F) (k i : nat) :
  (i < k)%nat -> table f k !! S i = Some (Some (f i)).
Proof.
  intros Hi. unfold table.
  change (map (fun j => Some (f j)) (seq 0 k) !! i = Some (Some (f i))).
  rewrite lookup_map, lookup_seq_lt by assumption. reflexivity.
Qed.

Lemma table_snoc (f : nat -> F) (k : nat) :
  table f k ++ [Some (f k)] = table f (S k).
Proof.
  unfold table. rewrite seq_S, map_app. reflexivity.
Qed.

Lemma table_getitem (f : nat -> F) (k : nat) (t : Z) :
  1 <= t <= Z.of_nat k ->
  py_getitem (table f k) t = Ok (Some (f (Z.to_nat (t - 1)))).
Proof.
  intros Ht. replace t with (Z.of_nat (S (Z.to_nat (t - 1)))) at 1 by lia.
  apply py_getitem_lookup, table_lookup_S. lia.
Qed.

Lemma table_getitem_0 (f : nat -> F) (k : nat) :
  py_getitem (table f k) 0 = Ok None.
Proof. apply (py_getitem_lookup _ 0%nat). reflexivity. Qed.

(** One iteration extends both tables by the next value of the
    recurrence. *)
Lemma retention_body_table (k : nat) :
  retention_body alpha beta
    (table (P_rec alpha beta) (S k), table (S_rec alpha beta) (S k))
    (2 + Z.of_nat k)
  = Ok (table (P_rec alpha beta) (S (S k)), table (S_rec alpha beta) (S (S k))).
Proof.
  unfold retention_body.
  rewrite !table_getitem by lia. cbn [mbind result_bind as_number].
  replace (Z.to_nat (2 + Z.of_nat k - 1 - 1)) with k by lia.
  change (churn_ratio alpha beta (2 + Z.of_nat k) * P_rec alpha beta k)%num
    with (P_rec alpha beta (S k)).
  rewrite table_snoc, table_getitem by lia.
  cbn [mbind result_bind as_number].
  replace (Z.to_nat (2 + Z.of_nat k - 1)) with (S k) by lia.
  change (S_rec alpha beta k - P_rec alpha beta (S k))%num
    with (S_rec alpha beta (S k)).
  rewrite table_snoc. reflexivity.
Qed.

Lemma retention_loop_table (n k : nat) :
  for_each (retention_body alpha beta)
    (map (fun i : nat => 2 + Z.of_nat i) (seq k n))
    (table (P_rec alpha beta) (S k), table (S_rec alpha beta) (S k))
  = Ok (table (P_rec alpha beta) (S (k + n)), table (S_rec alpha beta) (S (k + n))).
Proof.
  revert k. induction n as [|n IH]; intros k.
  - cbn. rewrite Nat.add_0_r. reflexivity.
  - cbn [seq map for_each]. rewrite retention_body_table.
    cbn [mbind result_bind]. rewrite IH. do 3 f_equal; lia.
Qed.

(** The whole function, for every [num_periods]: the tables of the
    recurrence up to period [max 1 (num_periods - 1)]. *)
Lemma recursive_retention_stats_table (num_periods : Z) :
  _recursive_retention_stats alpha beta num_periods
  = Ok (table (P_rec alpha beta) (S (Z.to_nat (num_periods - 2))),
        table (S_rec alpha beta) (S (Z.to_nat (num_periods - 2)))).
Proof.
  unfold _recursive_retention_stats, py_range. cbn [py_getitem].
  change (py_getitem _ 1 ≫= as_number) with (Ok (alpha / (alpha + beta))%num).
  cbn [mbind result_bind].
  apply (retention_loop_table (Z.to_nat (num_periods - 2)) 0).
Qed.
End RetentionFacts.

Lemma as_numbers_Some {F : Type} (l : list F) : as_numbers (map Some l) = Ok l.
Proof. induction l as [|x l IH]; cbn; [reflexivity|]. rewrite IH. reflexivity. Qed.

Lemma py_slice_table {F : Type} (f : nat -> F) (k : nat) (n : Z) :
  n = 1 + Z.of_nat k ->
  py_slice (table f k) 1 n = map (fun i => Some (f i)) (seq 0 k).
Proof.
  intros ->. unfold py_slice, slice_bound, len. rewrite table_length. cbv zeta.
  assert ((1 <? 0) = false) as -> by reflexivity.
  assert ((1 + Z.of_nat k <? 0) = false) as -> by zbool.
  replace (Z.to_nat (Z.min (Z.max 1 0) (Z.of_nat (S k)))) with 1%nat by lia.
  replace (Z.to_nat (Z.min (Z.max (1 + Z.of_nat k) 0) (Z.of_nat (S k)))) with (S k) by lia.
  unfold table. cbn [drop]. rewrite drop_0.
  apply take_ge. rewrite length_map, length_seq. lia.
Qed.

(** C3: for [num_periods >= 2] the function returns [P] and [S] of length
    [num_periods] whose slot 0 is unused ([None]), with
    [P[1] = alpha / (alpha + beta)], [S[1] = 1 - P[1]], and for every
    [t] in [2 .. num_periods - 1]
    [P[t] = (beta + t - 2) / (alpha + beta + t - 1) * P[t-1]] and
    [S[t] = S[t-1] - P[t]].  It holds in every number system, so for all
    [alpha] and [beta]. *)
Theorem recursive_retention_stats_recurrence
    {F : Type} `{Number F} (alpha beta : F) (num_periods : Z) :
  2 <= num_periods ->
  exists P S : list (option F),
    _recursive_retention_stats alpha beta num_periods = Ok (P, S) /\
    len P = num_periods /\ len S = num_periods /\
    py_getitem P 0 = Ok None /\ py_getitem S 0 = Ok None /\
    py_getitem P 1 = Ok (Some (alpha / (alpha + beta))%num) /\
    py_getitem S 1 = Ok (Some (of_int 1 - alpha / (alpha + beta))%num) /\
    forall t : Z, 2 <= t < num_periods ->
      exists p_prev s_prev p_t : F,
        py_getitem P (t - 1) = Ok (Some p_prev) /\
        py_getitem S (t - 1) = Ok (Some s_prev) /\
        py_getitem P t = Ok (Some p_t) /\
        p_t = ((beta + of_int t - of_int 2)
               / (alpha + beta + of_int t - of_int 1) * p_prev)%num /\
        py_getitem S t = Ok (Some (s_prev - p_t)%num).
Proof.
  intros Hn.
  eexists _, _. split; [apply recursive_retention_stats_table|].
  unfold len. rewrite !table_length.
  rewrite !table_getitem_0, !(table_getitem _ _ 1) by lia.
  split; [lia|]. split; [lia|]. do 4 (split; [reflexivity|]).
  intros t Ht.
  exists (P_rec alpha beta (Z.to_nat (t - 1 - 1))),
         (S_rec alpha beta (Z.to_nat (t - 1 - 1))),
         (P_rec alpha beta (Z.to_nat (t - 1))).
  rewrite !table_getitem by lia.
  replace (Z.to_nat (t - 1)) with (S (Z.to_nat (t - 1 - 1))) by lia.
  do 3 (split; [reflexivity|]). split; [|reflexivity].
  cbn [P_rec]. unfold churn_ratio.
  replace (2 + Z.of_nat (Z.to_nat (t - 1 - 1))) with t by lia. reflexivity.
Qed.

Lemma recursive_retention_stats_recurrence_witness :
  exists P S : list (option Q),
    _recursive_retention_stats (1 # 1)%Q (2 # 1)%Q 4 = Ok (P, S) /\ len P = 4.
Proof.
  destruct (recursive_retention_stats_recurrence (1 # 1)%Q (2 # 1)%Q 4 ltac:(lia))
    as (P & S & Hrun & HP & _).
  exists P, S. split; assumption.
Defined.

(** ** The recursion when division can raise *)

Lemma elem_of_py_range (lo hi t : Z) : t ∈ py_range lo hi <-> lo <= t < hi.
Proof.
  unfold py_range. rewrite list_elem_of_In, in_map_iff. split.
  - intros (i & <- & Hi). apply in_seq in Hi. lia.
  - intros Ht. exists (Z.to_nat (t - lo)). split; [lia|]. apply in_seq. lia.
Qed.

Section RetentionRaisingFacts.
Context {F : Type} `{Number F}.
Variable zero_divisor : F -> bool.
Variables (alpha beta : F).

(** An iteration raises on a zero divisor and is the iteration with the
    total division otherwise. *)
Lemma retention_body_raising_eq (st : list (option F) * list (option F)) (t : Z) :
  retention_body_raising zero_divisor alpha beta st t
  = if zero_divisor (alpha + beta + of_int t - of_int 1)%num
    then Raise "ZeroDivisionError"
    else retention_body alpha beta st t.
Proof.
  destruct st as [p s].
  unfold retention_body_raising, retention_body, py_div, churn_ratio.
  destruct (zero_divisor _); reflexivity.
Qed.

Lemma retention_loop_raising_Ok (ts : list Z) :
  Forall (fun t => zero_divisor (alpha + beta + of_int t - of_int 1)%num = false) ts ->
  forall st,
    for_each (retention_body_raising zero_divisor alpha beta) ts st
    = for_each (retention_body alpha beta) ts st.
Proof.
  induction 1 as [|t ts Ht _ IH]; intros st; [reflexivity|].
  cbn [for_each]. rewrite retention_body_raising_eq, Ht.
  destruct (retention_body alpha beta st t) as [st'|e]; [|reflexivity].
  cbn [mbind result_bind]. apply IH.
Qed.

Lemma retention_loop_raising_inv (ts : list Z) :
  forall st r,
    for_each (retention_body_raising zero_divisor alpha beta) ts st = Ok r ->
    Forall (fun t => zero_divisor (alpha + beta + of_int t - of_int 1)%num = false) ts.
Proof.
  induction ts as [|t ts IH]; intros st r Hrun; [constructor|].
  cbn [for_each] in Hrun. rewrite retention_body_raising_eq in Hrun.
  destruct (zero_divisor _) eqn:Hz; [discriminate|].
  destruct (retention_body alpha beta st t) as [st'|e]; [|discriminate].
  cbn [mbind result_bind] in Hrun. constructor; [exact Hz|exact (IH st' r Hrun)].
Qed.

(** When no divisor is one on which [/] raises, the function is the one
    with the total division. *)
Lemma recursive_retention_stats_raising_Ok (num_periods : Z) :
  zero_divisor (alpha + beta)%num = false ->
  (forall t : Z, 2 <= t < num_periods ->
     zero_divisor (alpha + beta + of_int t - of_int 1)%num = false) ->
  _recursive_retention_stats_raising zero_divisor alpha beta num_periods
  = _recursive_retention_stats alpha beta num_periods.
Proof.
  intros H0 Ht. unfold _recursive_retention_stats_raising, py_div. rewrite H0.
  cbn [mbind result_bind]. unfold _recursive_retention_stats.
  change (py_getitem _ 1 ≫= as_number) with (Ok (alpha / (alpha + beta))%num).
  cbn [mbind result_bind].
  apply retention_loop_raising_Ok. rewrite Forall_forall.
  intros t Hin. apply Ht, elem_of_py_range, Hin.
Qed.

(** A call that returns met no such divisor. *)
Lemma recursive_retention_stats_raising_inv (num_periods : Z)
    (r : list (option F) * list (option F)) :
  _recursive_retention_stats_raising zero_divisor alpha beta num_periods = Ok r ->
  zero_divisor (alpha + beta)%num = false /\
  forall t : Z, 2 <= t < num_periods ->
    zero_divisor (alpha + beta + of_int t - of_int 1)%num = false.
Proof.
  unfold _recursive_retention_stats_raising, py_div.
  destruct (zero_divisor (alpha + beta)%num) eqn:H0; [discriminate|].
  cbn [mbind result_bind].
  change (py_getitem _ 1 ≫= as_number) with (Ok (alpha / (alpha + beta))%num).
  cbn [mbind result_bind]. intros Hrun. split; [reflexivity|].
  apply retention_loop_raising_inv in Hrun. rewrite Forall_forall in Hrun.
  intros t Ht. apply Hrun, elem_of_py_range, Ht.
Qed.
End RetentionRaisingFacts.

(** On [numpy.float64], where no divisor raises, the two definitions are
    the same function. *)
Lemma recursive_retention_stats_never_raising {F : Type} `{Number F}
    (alpha beta : F) (num_periods : Z) :
  _recursive_retention_stats_raising (fun _ => false) alpha beta num_periods
  = _recursive_retention_stats alpha beta num_periods.
Proof. apply recursive_retention_stats_raising_Ok; reflexivity. Qed.

(** C10, as the code has it: the two base entries are built before the
    loop, hence for every [num_periods], also below 2, the returned [P] and
    [S] have length [max 2 num_periods] -- provided no division meets a
    divisor on which [/] raises: [alpha + beta] for the base entry and
    [alpha + beta + t - 1] for the periods [t] of the loop.  That is so for
    all [numpy.float64] arguments, where [zero_divisor] is nowhere true. *)
Theorem recursive_retention_stats_raising_length
    {F : Type} `{Number F} (zero_divisor : F -> bool)
    (alpha beta : F) (num_periods : Z) :
  zero_divisor (alpha + beta)%num = false ->
  (forall t : Z, 2 <= t < num_periods ->
     zero_divisor (alpha + beta + of_int t - of_int 1)%num = false) ->
  exists P S : list (option F),
    _recursive_retention_stats_raising zero_divisor alpha beta num_periods
    = Ok (P, S) /\
    len P = Z.max 2 num_periods /\ len S = Z.max 2 num_periods /\
    py_getitem P 0 = Ok None /\
    py_getitem P 1 = Ok (Some (alpha / (alpha + beta))%num) /\
    py_getitem S 0 = Ok None /\
    py_getitem S 1 = Ok (Some (of_int 1 - alpha / (alpha + beta))%num).
Proof.
  intros H0 Ht. eexists _, _. split.
  { rewrite recursive_retention_stats_raising_Ok by assumption.
    apply recursive_retention_stats_table. }
  unfold len. rewrite !table_length.
  rewrite !table_getitem_0, !(table_getitem _ _ 1) by lia.
  split; [lia|]. split; [lia|]. repeat split.
Qed.

Lemma recursive_retention_stats_raising_length_witness :
  exists P S : list (option Q),
    _recursive_retention_stats_raising Q_is_zero (1 # 1)%Q (2 # 1)%Q 3 = Ok (P, S) /\
    len P = 3 /\ len S = 3.
Proof.
  destruct (recursive_retention_stats_raising_length Q_is_zero (1 # 1)%Q (2 # 1)%Q 3)
    as (P & S & Hrun & HP & HS & _).
  - reflexivity.
  - intros t Ht. replace t with 2 by lia. reflexivity.
  - exists P, S. split; [exact Hrun|]. split; [exact HP|exact HS].
Defined.

(** The claim of C10 fails for Python floats whose divisor is zero: with
    [alpha = 1.0], [beta = -1.0] the base entry [alpha / (alpha + beta)]
    raises [ZeroDivisionError], for [num_periods = 1] as for any other, and
    no list is returned; with [alpha = -1.0], [beta = 0.0] and
    [num_periods = 3] the divisor of period 2 is zero. *)
Lemma recursive_retention_stats_zero_divisor_counterexample :
  _recursive_retention_stats_raising float_is_zero 1%float (-1)%float 1
  = Raise "ZeroDivisionError" /\
  (forall num_periods : Z,
     _recursive_retention_stats_raising float_is_zero 1%float (-1)%float num_periods
     = Raise "ZeroDivisionError") /\
  _recursive_retention_stats_raising float_is_zero (-1)%float 0%float 3
  = Raise "ZeroDivisionError".
Proof.
  split; [vm_compute; reflexivity|]. split; [|vm_compute; reflexivity].
  intros num_periods. vm_compute. reflexivity.
Qed.

(** ** The recursion in exact arithmetic *)

Lemma Qpos_of_mul_pos (u d : Q) : (0 < d -> 0 < u * d -> 0 < u)%Q.
Proof. intros Hd Hud. nra. Qed.

Section RetentionExact.
Variables (alpha beta : Q).
Hypothesis alpha_pos : (0 < alpha)%Q.
Hypothesis beta_pos : (0 < beta)%Q.

Local Abbreviation P := (P_rec alpha beta).
Local Abbreviation Sv := (S_rec alpha beta).
Local Notation "# k" := (inject_Z (Z.of_nat k)) (at level 8, format "# k").

Lemma inject_nat_nonneg (k : nat) : (0 <= #k)%Q.
Proof. change 0%Q with (inject_Z 0). rewrite <- Zle_Qle. lia. Qed.

Lemma inject_nat_S (k : nat) : (#(S k) == #k + 1)%Q.
Proof. rewrite Nat2Z.inj_succ, <- Z.add_1_r, inject_Z_plus. reflexivity. Qed.

Lemma P_rec_step (k : nat) :
  (P (S k) == (beta + #k) / (alpha + beta + #k + 1) * P k)%Q.
Proof.
  pose proof (inject_nat_nonneg k) as Hk.
  cbn [P_rec]. unfold churn_ratio. cbn [fadd fsub fmul fdiv of_int Q_number].
  rewrite inject_Z_plus.
  apply Qmult_comp; [|reflexivity].
  change (inject_Z 2) with 2%Q. change (inject_Z 1) with 1%Q.
  field. lra.
Qed.

Lemma S_rec_step (k : nat) : (Sv (S k) == Sv k - P (S k))%Q.
Proof. reflexivity. Qed.

(** Both sequences stay positive; they are tied by
    [P[t] * (beta + t - 1) = alpha * S[t]]. *)
Lemma retention_invariant (k : nat) :
  (0 < P k /\ 0 < Sv k /\ P k * (beta + #k) == alpha * Sv k)%Q.
Proof.
  induction k as [|k (HP & HS & Hinv)].
  - assert (HD : (0 < alpha + beta)%Q) by lra.
    assert (E : (P 0 * (alpha + beta) == alpha)%Q).
    { cbn. field. lra. }
    assert (E' : (Sv 0 * (alpha + beta) == beta)%Q).
    { cbn. field. lra. }
    assert (HP0 : (0 < P 0)%Q).
    { apply (Qpos_of_mul_pos _ (alpha + beta)); [assumption|]. rewrite E. assumption. }
    assert (HS0 : (0 < Sv 0)%Q).
    { apply (Qpos_of_mul_pos _ (alpha + beta)); [assumption|]. rewrite E'. assumption. }
    split; [assumption|]. split; [assumption|].
    change (#0) with 0%Q. nra.
  - pose proof (inject_nat_nonneg k) as Hk.
    pose proof (P_rec_step k) as HPs.
    pose proof (inject_nat_S k) as HkS.
    assert (HD : (0 < alpha + beta + #k + 1)%Q) by lra.
    assert (E : (P (S k) * (alpha + beta + #k + 1) == alpha * Sv k)%Q).
    { rewrite HPs, <- Hinv. field. lra. }
    assert (E3 : ((Sv k - P (S k)) * (alpha + beta + #k + 1)
                  == Sv k * (beta + #k + 1))%Q) by lra.
    assert (HP' : (0 < P (S k))%Q).
    { apply (Qpos_of_mul_pos _ (alpha + beta + #k + 1)); [assumption|].
      rewrite E. nra. }
    assert (HS' : (0 < Sv k - P (S k))%Q).
    { apply (Qpos_of_mul_pos _ (alpha + beta + #k + 1)); [assumption|].
      rewrite E3. nra. }
    split; [assumption|]. rewrite S_rec_step. split; [assumption|].
    rewrite HkS. nra.
Qed.

Lemma S_rec_antitone (i j : nat) : (i <= j)%nat -> (Sv j <= Sv i)%Q.
Proof.
  induction 1 as [|j _ IH]; [apply Qle_refl|].
  rewrite S_rec_step.
  destruct (retention_invariant (S j)) as (HP & _). lra.
Qed.

(** The mass spent up to a period plus what survives it is 1. *)
Lemma churn_mass (k : nat) : (py_sum (map P (seq 0 (S k))) == 1 - Sv k)%Q.
Proof.
  unfold py_sum. induction k as [|k IH].
  - cbn. ring.
  - rewrite seq_S, map_app, fold_left_app. cbn [map fold_left Nat.add].
    cbn [fadd Q_number]. rewrite IH, S_rec_step. ring.
Qed.
End RetentionExact.

(** C4, in exact arithmetic: for rational [alpha > 0], [beta > 0] and
    [num_periods >= 2], [P[t] >= 0] and [S[t] >= 0] for every [t] in
    [1 .. num_periods - 1], [S] does not increase from one period to a
    later one, and [sum(P[1:num_periods]) <= 1].  (In binary64 the bound
    [S[t] >= 0] can be lost to rounding, see
    [retention_stats_rounding_counterexample].) *)
Theorem retention_stats_bounds (alpha beta : Q) (num_periods : Z) :
  (0 < alpha)%Q -> (0 < beta)%Q -> 2 <= num_periods ->
  exists P S : list (option Q),
    _recursive_retention_stats alpha beta num_periods = Ok (P, S) /\
    (forall t : Z, 1 <= t < num_periods ->
       exists p s : Q,
         py_getitem P t = Ok (Some p) /\ py_getitem S t = Ok (Some s) /\
         (0 <= p)%Q /\ (0 <= s)%Q) /\
    (forall t u : Z, 1 <= t -> t <= u -> u < num_periods ->
       exists s_t s_u : Q,
         py_getitem S t = Ok (Some s_t) /\ py_getitem S u = Ok (Some s_u) /\
         (s_u <= s_t)%Q) /\
    (exists ps : list Q,
       as_numbers (py_slice P 1 num_periods) = Ok ps /\ (py_sum ps <= 1)%Q).
Proof.
  intros Ha Hb Hn.
  eexists _, _. split; [apply recursive_retention_stats_table|].
  split; [|split].
  - intros t Ht. eexists _, _.
    rewrite !table_getitem by lia.
    do 2 (split; [reflexivity|]).
    destruct (retention_invariant alpha beta Ha Hb (Z.to_nat (t - 1))) as (HP & HS & _).
    split; apply Qlt_le_weak; assumption.
  - intros t u Ht Htu Hu. eexists _, _.
    rewrite !table_getitem by lia.
    do 2 (split; [reflexivity|]).
    apply S_rec_antitone; [assumption..|lia].
  - exists (map (P_rec alpha beta) (seq 0 (S (Z.to_nat (num_periods - 2))))).
    rewrite py_slice_table by lia.
    rewrite <- (map_map (P_rec alpha beta) Some), as_numbers_Some.
    split; [reflexivity|].
    rewrite churn_mass by assumption.
    destruct (retention_invariant alpha beta Ha Hb (Z.to_nat (num_periods - 2)))
      as (_ & HS & _).
    lra.
Qed.

Lemma retention_stats_bounds_witness :
  exists P S : list (option Q),
    _recursive_retention_stats (1 # 1)%Q (2 # 1)%Q 4 = Ok (P, S) /\
    exists ps : list Q,
      as_numbers (py_slice P 1 4) = Ok ps /\ (py_sum ps <= 1)%Q.
Proof.
  destruct (retention_stats_bounds (1 # 1)%Q (2 # 1)%Q 4)
    as (P & S & Hrun & _ & _ & Hsum); [reflexivity | reflexivity | lia |].
  exists P, S. split; assumption.
Defined.


(** A run: [alpha = 1], [beta = 2], four periods (fractions as the
    operations leave them, not reduced). *)
Example retention_stats_example :
  _recursive_retention_stats (1 # 1)%Q (2 # 1)%Q 4
  = Ok ([None; Some (1 # 3); Some (2 # 12); Some (6 # 60)]%Q,
        [None; Some (2 # 3); Some (18 # 36); Some (864 # 2160)]%Q).
Proof. reflexivity. Qed.

(** ** indicator_map *)

(** The vector one iteration builds: all false, then slots 0 and [i] set. *)
Lemma indicator_body_Ok (n : Z) (m : gmap string (list bool)) (i : nat) (c : string) :
  Z.of_nat i < n ->
  indicator_body n m (Z.of_nat i, c)
  = Ok (<[c := <[i := true]> (<[0%nat := true]> (replicate (Z.to_nat n) false))]> m).
Proof.
  intros Hi. unfold indicator_body, np_zeros_bool.
  assert ((n <? 0) = false) as -> by zbool. cbn [mbind result_bind].
  rewrite py_setitem_Ok by (unfold len; rewrite length_replicate; lia).
  cbn [mbind result_bind].
  rewrite py_setitem_Ok
    by (unfold len; rewrite length_insert, length_replicate; lia).
  cbn [mbind result_bind]. rewrite Nat2Z.id. reflexivity.
Qed.

Lemma indicator_loop (n : Z) (l : list string) :
  NoDup l ->
  forall (k : nat) (m : gmap string (list bool)),
    Z.of_nat (k + length l) <= n ->
    exists m' : gmap string (list bool),
      for_each (indicator_body n) (zip (map Z.of_nat (seq k (length l))) l) m = Ok m' /\
      (forall (j : nat) (c : string), l !! j = Some c ->
         m' !! c = Some (<[(k + j)%nat := true]>
                          (<[0%nat := true]> (replicate (Z.to_nat n) false)))) /\
      (forall c : string, c ∉ l -> m' !! c = m !! c).
Proof.
  induction 1 as [|c l Hc Hnd IH]; intros k m Hk.
  - exists m. cbn. split; [reflexivity|]. split; [|reflexivity].
    intros j c Hj. discriminate.
  - cbn [length seq map zip zip_with for_each].
    rewrite indicator_body_Ok by (cbn [length] in Hk; lia).
    cbn [mbind result_bind].
    destruct (IH (S k) (<[c := <[k := true]> (<[0%nat := true]>
                 (replicate (Z.to_nat n) false))]> m)) as (m' & Hrun & Hin & Hout).
    { cbn [length] in Hk. lia. }
    exists m'. split; [exact Hrun|]. split.
    + intros [|j] c' Hj.
      * cbn in Hj. injection Hj as <-. rewrite (Hout c Hc), lookup_insert_eq.
        rewrite Nat.add_0_r. reflexivity.
      * cbn in Hj. rewrite (Hin j c' Hj). do 2 f_equal. lia.
    + intros c' Hc'. apply not_elem_of_cons in Hc' as [Hne Hc'].
      rewrite (Hout c' Hc'), lookup_insert_ne by congruence. reflexivity.
Qed.

Lemma count_true_replicate_false (n : nat) : count_true (replicate n false) = 0%nat.
Proof. induction n as [|n IH]; cbn; [reflexivity|exact IH]. Qed.

Lemma count_true_one_hot (n i : nat) :
  (i < n)%nat -> count_true (<[i := true]> (replicate n false)) = 1%nat.
Proof.
  revert i. induction n as [|n IH]; intros [|i] Hi; try lia.
  - cbn. rewrite count_true_replicate_false. reflexivity.
  - cbn. apply IH. lia.
Qed.

Lemma count_true_indicator (n i : nat) :
  (i < n)%nat ->
  count_true (<[i := true]> (<[0%nat := true]> (replicate n false)))
  = if decide (i = 0%nat) then 1%nat else 2%nat.
Proof.
  destruct n as [|n]; [lia|]. destruct i as [|i]; intros Hi; cbn.
  - rewrite count_true_replicate_false. reflexivity.
  - rewrite count_true_one_hot by lia. reflexivity.
Qed.

Lemma lookup_indicator (n i j : nat) :
  (i < n)%nat -> (j < n)%nat ->
  <[i := true]> (<[0%nat := true]> (replicate n false)) !! j
  = Some (bool_decide (j = 0%nat \/ j = i)).
Proof.
  intros Hi Hj.
  destruct (decide (j = i)) as [->|Hji].
  - rewrite list_lookup_insert_eq by (rewrite length_insert, length_replicate; lia).
    rewrite bool_decide_eq_true_2 by (right; reflexivity). reflexivity.
  - rewrite list_lookup_insert_ne by congruence.
    destruct (decide (j = 0%nat)) as [->|Hj0].
    + rewrite list_lookup_insert_eq by (rewrite length_replicate; lia).
      rewrite bool_decide_eq_true_2 by (left; reflexivity). reflexivity.
    + rewrite list_lookup_insert_ne by congruence.
      rewrite lookup_replicate_2 by lia.
      rewrite bool_decide_eq_false_2 by (intros [?|?]; congruence). reflexivity.
Qed.

Lemma sorted_keys_NoDup {V : Type} (d : gmap string V) :
  NoDup (sorted (map_to_list d).*1).
Proof.
  unfold sorted. rewrite merge_sort_Permutation. apply NoDup_fst_map_to_list.
Qed.

Lemma sorted_keys_length {V : Type} (d : gmap string V) :
  length (sorted (map_to_list d).*1) = size d.
Proof.
  unfold sorted. rewrite merge_sort_Permutation, length_fmap.
  apply length_map_to_list.
Qed.

(** What the constructor leaves behind. *)
Lemma init_Ok (F : Type) (d : gmap string (list cohort)) :
  exists self : ShiftedBeta F,
    __init__ d = Ok self /\
    data self = d /\
    categories self = sorted (map_to_list d).*1 /\
    n_cats self = Z.of_nat (size d) /\
    alpha self = ∅ /\ beta self = ∅ /\ opt self = None /\
    forall (i : nat) (category : string),
      categories self !! i = Some category ->
      imap self !! category
      = Some (<[i := true]> (<[0%nat := true]> (replicate (size d) false))).
Proof.
  unfold __init__, indicator_map. cbn [categories n_cats imap].
  destruct (indicator_loop (Z.of_nat (size d)) _ (sorted_keys_NoDup d) 0 ∅)
    as (m' & Hrun & Hin & _).
  { rewrite sorted_keys_length. lia. }
  unfold enumerate. rewrite Hrun. cbn [mbind result_bind].
  eexists. split; [reflexivity|].
  cbn [data categories n_cats imap alpha beta opt set_imap].
  do 6 (split; [reflexivity|]).
  intros i category Hi. rewrite (Hin i category Hi), Nat2Z.id. reflexivity.
Qed.

(** The constructor on the two-category sample. *)
Example indicator_map_example :
  exists self : ShiftedBeta Q,
    __init__ two_categories = Ok self /\
    categories self = ["a"; "b"] /\ n_cats self = 2 /\
    imap self !! "a" = Some [true; false] /\
    imap self !! "b" = Some [true; true].
Proof. eexists. split; [vm_compute; reflexivity|]. repeat split. Qed.

(** C8: the constructor succeeds on every dataset, and the category at
    ordinal index [i] of the sorted category list gets a boolean vector of
    length [n_cats] that is true at index 0 and at index [i] and false
    elsewhere; so it has two true entries, and one when [i = 0]. *)
Theorem indicator_map_vectors (F : Type) (d : gmap string (list cohort)) :
  exists self : ShiftedBeta F,
    __init__ d = Ok self /\
    categories self = sorted (map_to_list d).*1 /\
    n_cats self = len (categories self) /\
    forall (i : nat) (category : string),
      categories self !! i = Some category ->
      exists v : list bool,
        imap self !! category = Some v /\
        len v = n_cats self /\
        (forall j : nat, (j < length v)%nat ->
           v !! j = Some (bool_decide (j = 0%nat \/ j = i))) /\
        count_true v = if decide (i = 0%nat) then 1%nat else 2%nat.
Proof.
  destruct (init_Ok F d) as (self & Hinit & _ & Hcats & Hn & _ & _ & _ & Himap).
  exists self. split; [exact Hinit|]. split; [exact Hcats|].
  split; [rewrite Hn, Hcats; unfold len; rewrite sorted_keys_length; reflexivity|].
  intros i category Hi.
  pose proof (lookup_lt_Some _ _ _ Hi) as Hlt.
  rewrite Hcats, sorted_keys_length in Hlt.
  eexists. split; [apply (Himap i category Hi)|].
  unfold len. rewrite !length_insert, length_replicate.
  split; [symmetry; exact Hn|]. split.
  - intros j Hj. apply lookup_indicator; assumption.
  - apply count_true_indicator. assumption.
Qed.

(** The category list holds the keys of the dataset. *)
Lemma init_categories_dom (F : Type) (d : gmap string (list cohort)) (self : ShiftedBeta F)
    (name : string) (cohorts : list cohort) :
  __init__ d = Ok self -> d !! name = Some cohorts -> name ∈ categories self.
Proof.
  intros Hinit Hname.
  destruct (init_Ok F d) as (self' & Hinit' & _ & Hcats & _).
  rewrite Hinit in Hinit'. injection Hinit' as <-.
  rewrite Hcats. unfold sorted. rewrite merge_sort_Permutation.
  apply list_elem_of_fmap. exists (name, cohorts). split; [reflexivity|].
  apply elem_of_map_to_list. exact Hname.
Qed.

(** Every category has its vector, of length [n_cats]. *)
Lemma init_imap_category (F : Type) (d : gmap string (list cohort)) (self : ShiftedBeta F)
    (name : string) :
  __init__ d = Ok self -> name ∈ categories self ->
  exists v : list bool, imap self !! name = Some v /\ length v = size d.
Proof.
  intros Hinit Hin.
  destruct (init_Ok F d) as (self' & Hinit' & _ & _ & _ & _ & _ & _ & Himap).
  rewrite Hinit in Hinit'. injection Hinit' as <-.
  apply list_elem_of_lookup in Hin as [i Hi].
  eexists. split; [apply (Himap i name Hi)|].
  rewrite !length_insert, length_replicate. reflexivity.
Qed.

Lemma init_imap_total (F : Type) (d : gmap string (list cohort)) (self : ShiftedBeta F)
    (name : string) (cohorts : list cohort) :
  __init__ d = Ok self -> d !! name = Some cohorts ->
  exists v : list bool, imap self !! name = Some v /\ length v = size d.
Proof.
  intros Hinit Hname. apply (init_imap_category F d self name Hinit).
  apply (init_categories_dom F d self name cohorts); assumption.
Qed.

(** ** The likelihood *)

Lemma lookup_nth {A : Type} (l : list A) (i : nat) (d : A) :
  (i < length l)%nat -> l !! i = Some (nth i l d).
Proof.
  intros Hi. destruct (lookup_lt_is_Some_2 l i Hi) as [x Hx].
  rewrite (nth_lookup_Some l i d x Hx). exact Hx.
Qed.

Lemma py_getitem_nth {A : Type} (l : list A) (i : Z) (d : A) :
  0 <= i < len l -> py_getitem l i = Ok (nth (Z.to_nat i) l d).
Proof.
  unfold len. intros Hi. replace i with (Z.of_nat (Z.to_nat i)) at 1 by lia.
  apply py_getitem_lookup, lookup_nth. lia.
Qed.

Lemma py_slice_from_1 {A : Type} (l : list A) (n : nat) :
  (1 <= n <= length l)%nat ->
  py_slice l 1 (Z.of_nat n) = take (n - 1) (drop 1 l).
Proof.
  intros Hn. unfold py_slice, slice_bound, len. cbv zeta.
  assert ((1 <? 0) = false) as -> by reflexivity.
  assert ((Z.of_nat n <? 0) = false) as -> by zbool.
  replace (Z.to_nat (Z.min (Z.max 1 0) (Z.of_nat (length l)))) with 1%nat by lia.
  replace (Z.to_nat (Z.min (Z.max (Z.of_nat n) 0) (Z.of_nat (length l)))) with n by lia.
  reflexivity.
Qed.

Lemma py_slice_to_take {A : Type} (l : list A) (n : Z) :
  0 <= n -> py_slice_to l n = take (Z.to_nat n) l.
Proof.
  intros Hn. unfold py_slice_to, py_slice, slice_bound, len. cbv zeta.
  assert ((0 <? 0) = false) as -> by reflexivity.
  assert ((n <? 0) = false) as -> by zbool.
  replace (Z.to_nat (Z.min (Z.max 0 0) (Z.of_nat (length l)))) with 0%nat by lia.
  rewrite drop_0.
  destruct (Z.le_ge_cases n (Z.of_nat (length l))) as [Hle|Hge].
  - f_equal. lia.
  - rewrite !take_ge by lia. reflexivity.
Qed.

Lemma py_slice_from_drop {A : Type} (l : list A) (n : Z) :
  0 <= n -> py_slice_from l n = drop (Z.to_nat n) l.
Proof.
  intros Hn. unfold py_slice_from, slice_bound, len. cbv zeta.
  assert ((n <? 0) = false) as -> by zbool.
  destruct (Z.le_ge_cases n (Z.of_nat (length l))) as [Hle|Hge].
  - f_equal. lia.
  - rewrite !drop_ge by lia. reflexivity.
Qed.

Lemma zip_with_seq_drop {A B C : Type} (f : A -> B -> C) (g : nat -> A)
    (l : list B) (d : B) (m k : nat) :
  (S k + m <= length l)%nat ->
  zip_with f (map g (seq k m)) (take m (drop (S k) l))
  = map (fun t => f (g (t - 1)%nat) (nth t l d)) (seq (S k) m).
Proof.
  revert k. induction m as [|m IH]; intros k Hk; [reflexivity|].
  rewrite (drop_S l (nth (S k) l d) (S k)) by (apply lookup_nth; lia).
  cbn [seq map take zip_with]. rewrite IH by lia.
  replace (S k - 1)%nat with k by lia. reflexivity.
Qed.

Lemma fold_left_map_acc {A B C : Type} (op : C -> B -> C) (h : A -> B)
    (l : list A) (c : C) :
  fold_left op (map h l) c = fold_left (fun acc t => op acc (h t)) l c.
Proof. revert c. induction l as [|x l IH]; intros c; cbn; [reflexivity|apply IH]. Qed.

Lemma for_each_Ok_fold {St X : Type} (body : St -> X -> result St)
    (step : St -> X -> St) (xs : list X) (st : St) :
  Forall (fun x => forall s, body s x = Ok (step s x)) xs ->
  for_each body xs st = Ok (fold_left step xs st).
Proof.
  intros Hxs. revert st. induction Hxs as [|x xs Hx _ IH]; intros st; cbn.
  - reflexivity.
  - rewrite Hx. cbn. apply IH.
Qed.

Section LikelihoodFacts.
Context {F : Type} `{Number F}.
Variables (exp log : F -> F).

(** A well-formed cohort adds the term of the specification. *)
Lemma cohort_loglike_term (a b : F) (val : cohort) :
  cohort_ok val = true ->
  cohort_loglike log a b val = Ok (cohort_term log a b val).
Proof.
  destruct val as [active lost]. unfold cohort_ok, len. cbn [fst snd].
  intros Hok. apply andb_prop in Hok as [H2 Hlen].
  apply Z.leb_le in H2, Hlen.
  unfold cohort_loglike, len.
  rewrite recursive_retention_stats_table. cbn [mbind result_bind].
  rewrite py_slice_table by lia.
  unfold np_log_list.
  rewrite <- (map_map (P_rec a b) Some), as_numbers_Some. cbn [mbind result_bind].
  rewrite py_slice_from_1 by lia.
  unfold np_mul.
  rewrite decide_True
    by (rewrite !length_map, length_seq, length_take, length_drop; lia).
  cbn [mbind result_bind].
  rewrite table_getitem by lia. cbn [mbind result_bind as_number].
  rewrite (py_getitem_nth active _ 0) by (unfold len; lia).
  cbn [mbind result_bind].
  unfold cohort_term, died_sum, still_active_term, py_sum.
  replace (S (Z.to_nat (Z.of_nat (length active) - 2))) with (length active - 1)%nat by lia.
  replace (Z.to_nat (Z.of_nat (length active) - 1 - 1)) with (length active - 2)%nat by lia.
  replace (Z.to_nat (Z.of_nat (length active) - 1)) with (length active - 1)%nat by lia.
  rewrite map_map.
  rewrite (zip_with_seq_drop _ (fun i => log (P_rec a b i)) lost 0) by lia.
  rewrite fold_left_map_acc. reflexivity.
Qed.
End LikelihoodFacts.

Lemma forallb_Forall {A : Type} (f : A -> bool) (l : list A) :
  forallb f l = true -> Forall (fun x => f x = true) l.
Proof.
  induction l as [|x l IH]; cbn; intros Hf; [constructor|].
  apply andb_prop in Hf as [Hx Hl]. constructor; [exact Hx|exact (IH Hl)].
Qed.

Section LogpFacts.
Context {F : Type} `{Number F}.
Variables (exp log : F -> F).

Lemma combine_Ok (coeffs : list F) (bool_ind : list bool) :
  length coeffs = length bool_ind ->
  combine exp coeffs bool_ind = Ok (category_parameter exp coeffs bool_ind).
Proof.
  intros Hlen. unfold combine, np_mask. rewrite decide_True by exact Hlen.
  reflexivity.
Qed.

(** On a well-formed dataset the evaluation returns the negated sum of
    the specification. *)
Lemma logp_Ok (d : gmap string (list cohort)) (self : ShiftedBeta F) (p : list F) :
  __init__ d = Ok self ->
  dataset_ok d = true ->
  len p = 2 * Z.of_nat (size d) ->
  _logp exp log self (py_slice_to p (n_cats self)) (py_slice_from p (n_cats self))
  = Ok (- loglike_sum exp log self p)%num.
Proof.
  intros Hinit Hok Hp.
  destruct (init_Ok F d) as (self' & Hinit' & Hdata & _ & Hn & _).
  rewrite Hinit in Hinit'. injection Hinit' as <-.
  unfold _logp, loglike_sum. rewrite Hdata, Hn.
  rewrite py_slice_to_take, py_slice_from_drop, Nat2Z.id by lia.
  erewrite for_each_Ok_fold; [reflexivity|].
  apply forallb_Forall in Hok. rewrite Forall_forall in Hok |- *.
  intros [name cohorts] Hitem acc. specialize (Hok _ Hitem). cbn [fst snd] in Hok |- *.
  apply elem_of_map_to_list in Hitem.
  destruct (init_imap_total F d self name cohorts Hinit Hitem) as (v & Hv & Hlen).
  unfold len in Hp.
  unfold category_body, dict_getitem. rewrite Hv. cbn [mbind result_bind default].
  rewrite !combine_Ok by (rewrite ?length_take, ?length_drop; lia).
  cbn [mbind result_bind].
  apply for_each_Ok_fold. apply forallb_Forall in Hok.
  eapply Forall_impl; [exact Hok|].
  intros val Hval acc'. unfold cohort_body.
  rewrite cohort_loglike_term by exact Hval. reflexivity.
Qed.
End LogpFacts.

Lemma fold_left_ext_in {A B : Type} (f g : A -> B -> A) (l : list B) (a : A) :
  (forall x, x ∈ l -> forall acc, f acc x = g acc x) ->
  fold_left f l a = fold_left g l a.
Proof.
  revert a. induction l as [|x l IH]; intros a Hfg; [reflexivity|].
  cbn. rewrite (Hfg x (list_elem_of_here _ _)). apply IH.
  intros y Hy. apply Hfg. apply list_elem_of_further. exact Hy.
Qed.

Lemma mask_select_all_false {F : Type} (xs : list F) (n : nat) :
  mask_select xs (replicate n false) = [].
Proof.
  revert n. induction xs as [|x xs IH]; intros [|n]; cbn; try reflexivity. apply IH.
Qed.

Lemma mask_select_one_hot {F : Type} (xs : list F) (n i : nat) (x : F) :
  xs !! i = Some x -> (i < n)%nat ->
  mask_select xs (<[i := true]> (replicate n false)) = [x].
Proof.
  revert n i. induction xs as [|y xs IH]; intros n i Hx Hi; [discriminate|].
  destruct n as [|n]; [lia|]. destruct i as [|i]; cbn in *.
  - injection Hx as ->. rewrite mask_select_all_false. reflexivity.
  - apply IH; [exact Hx|lia].
Qed.

Lemma mask_select_indicator {F : Type} (xs : list F) (n i : nat) (c0 ci : F) :
  xs !! 0%nat = Some c0 -> xs !! i = Some ci -> (i < n)%nat ->
  mask_select xs (<[i := true]> (<[0%nat := true]> (replicate n false)))
  = if decide (i = 0%nat) then [c0] else [c0; ci].
Proof.
  intros H0 Hi Hn. destruct xs as [|y xs]; [discriminate|].
  destruct n as [|n]; [lia|]. cbn in H0. injection H0 as ->.
  destruct i as [|i]; cbn.
  - rewrite mask_select_all_false. reflexivity.
  - f_equal. apply mask_select_one_hot; [exact Hi|lia].
Qed.

(** ** The reconstruction of a category's parameters *)

Lemma index_of_lookup (l : list string) (i : nat) (name : string) :
  NoDup l -> l !! i = Some name -> index_of name l = i.
Proof.
  intros Hnd. revert i. induction Hnd as [|c l Hc _ IH]; intros i Hi; [discriminate|].
  destruct i as [|i]; cbn in Hi |- *.
  - injection Hi as ->. rewrite decide_True by reflexivity. reflexivity.
  - rewrite decide_False.
    + f_equal. apply IH. exact Hi.
    + intros ->. apply Hc. apply list_elem_of_lookup. exists i. exact Hi.
Qed.

Section ByCategory.
Context {F : Type} `{Number F}.
Variables (exp log : F -> F).

(** What the mask of the category at index [i] makes of a part of the
    coefficient vector. *)
Lemma category_parameter_indicator (coeffs : list F) (n i : nat) :
  (i < n)%nat -> (n <= length coeffs)%nat ->
  category_parameter exp coeffs
    (<[i := true]> (<[0%nat := true]> (replicate n false)))
  = exp (if decide (i = 0%nat) then nth 0 coeffs (of_int 0)
         else (nth 0 coeffs (of_int 0) + nth i coeffs (of_int 0))%num).
Proof.
  intros Hi Hn. unfold category_parameter.
  rewrite (mask_select_indicator coeffs n i
             (nth 0 coeffs (of_int 0)) (nth i coeffs (of_int 0)))
    by (try apply lookup_nth; lia).
  destruct (decide (i = 0%nat)); reflexivity.
Qed.

(** On a constructed model the two parameters of a category are [exp] of
    the intercept plus the category's own coefficient. *)
Lemma category_parameter_selected (d : gmap string (list cohort))
    (self : ShiftedBeta F) (p : list F) (name : string) (cohorts : list cohort) :
  __init__ d = Ok self -> length p = (2 * size d)%nat ->
  d !! name = Some cohorts ->
  exists v : list bool,
    imap self !! name = Some v /\
    category_parameter exp (take (size d) p) v
    = exp (selected_sum p 0 (index_of name (categories self))) /\
    category_parameter exp (drop (size d) p) v
    = exp (selected_sum p (size d) (index_of name (categories self))).
Proof.
  intros Hinit Hp Hname.
  pose proof (init_categories_dom F d self name cohorts Hinit Hname) as Hin.
  destruct (init_Ok F d) as (self' & Hinit' & _ & Hcats & _ & _ & _ & _ & Himap).
  rewrite Hinit in Hinit'. injection Hinit' as <-.
  apply list_elem_of_lookup in Hin as [i Hi].
  pose proof (lookup_lt_Some _ _ _ Hi) as Hlt.
  rewrite Hcats, sorted_keys_length in Hlt.
  assert (Hidx : index_of name (categories self) = i).
  { apply index_of_lookup; [|exact Hi]. rewrite Hcats. apply sorted_keys_NoDup. }
  rewrite Hidx. eexists. split; [apply (Himap i name Hi)|].
  rewrite !category_parameter_indicator
    by (rewrite ?length_take, ?length_drop; lia).
  unfold selected_sum.
  rewrite !nth_firstn, !nth_skipn.
  assert ((0 <? size d)%nat = true) as -> by (apply Nat.ltb_lt; lia).
  assert ((i <? size d)%nat = true) as -> by (apply Nat.ltb_lt; lia).
  rewrite Nat.add_0_r. split; reflexivity.
Qed.

Lemma loglike_sum_by_category (d : gmap string (list cohort))
    (self : ShiftedBeta F) (p : list F) :
  __init__ d = Ok self -> length p = (2 * size d)%nat ->
  loglike_sum exp log self p = loglike_by_category exp log d p.
Proof.
  intros Hinit Hp.
  destruct (init_Ok F d) as (self' & Hinit' & Hdata & Hcats & Hn & _).
  rewrite Hinit in Hinit'. injection Hinit' as <-.
  unfold loglike_sum, loglike_by_category. rewrite Hdata, Hn, Nat2Z.id.
  apply fold_left_ext_in. intros [name cohorts] Hitem acc. cbn [fst snd].
  apply elem_of_map_to_list in Hitem.
  destruct (category_parameter_selected d self p name cohorts Hinit Hp Hitem)
    as (v & Hv & Ha & Hb).
  rewrite Hv. cbn [default from_option]. change (id v) with v.
  rewrite Ha, Hb, Hcats. reflexivity.
Qed.
End ByCategory.

(** C2, as the code has it: on a dataset in which every cohort has at
    least two periods and a [lost] series at least as long as [active], for
    every coefficient vector [p] of length [2 * n_cats], [_logp] on its two
    halves returns the negation of the sum over every category and every
    cohort of
    [(sum over t = 1 .. length-1 of log(P[t]) * lost[t])
     + log(S[length-1]) * active[length-1]],
    where for the category at index [i] of the sorted category list alpha
    is [exp(p[0] + p[i])] and beta is [exp(p[n_cats] + p[n_cats + i])]
    ([exp(p[0])] and [exp(p[n_cats])] when [i = 0]): the [exp] of the sum
    of the entries its indicator vector selects among the first, resp. the
    last, [n_cats] entries.  The right-hand side is computed from the
    dataset and the vector alone. *)
Theorem logp_negated_loglike_by_category {F : Type} `{Number F} (exp log : F -> F)
    (d : gmap string (list cohort)) (p : list F) :
  dataset_ok d = true ->
  len p = 2 * Z.of_nat (size d) ->
  exists self : ShiftedBeta F,
    __init__ d = Ok self /\
    _logp exp log self (py_slice_to p (n_cats self)) (py_slice_from p (n_cats self))
    = Ok (- loglike_by_category exp log d p)%num.
Proof.
  intros Hok Hp.
  destruct (init_Ok F d) as (self & Hinit & _).
  exists self. split; [exact Hinit|].
  rewrite <- (loglike_sum_by_category exp log d self p Hinit)
    by (unfold len in Hp; lia).
  apply (logp_Ok exp log d); assumption.
Qed.

Lemma logp_negated_loglike_by_category_witness :
  exists self : ShiftedBeta Q,
    __init__ two_categories = Ok self /\
    _logp (fun q => q) (fun q => q) self
      (py_slice_to [0; 0; 0; 0]%Q (n_cats self))
      (py_slice_from [0; 0; 0; 0]%Q (n_cats self))
    = Ok (- loglike_by_category (fun q => q) (fun q => q) two_categories
                [0; 0; 0; 0]%Q)%Q.
Proof.
  exact (logp_negated_loglike_by_category (fun q : Q => q) (fun q : Q => q)
           two_categories [0; 0; 0; 0]%Q
           ltac:(vm_compute; reflexivity) ltac:(vm_compute; reflexivity)).
Defined.

(** The claim of C2 fails without the condition on the cohorts; whatever
    [exp] and [log] are, [_logp] returns no value on these two datasets.
    On a cohort of a single period the sum has no term to take: the
    logarithm is applied to the unused slot [S[0]], a [TypeError].  On a
    cohort of four periods whose [lost] series has three entries the three
    logarithms cannot be multiplied with the two counts [lost[1:4]], a
    [ValueError]. *)
Lemma logp_ill_formed_cohort_counterexample :
  dataset_ok one_period_only = false /\
  dataset_ok lost_too_short = false /\
  exists self1 self2 : ShiftedBeta Q,
    __init__ one_period_only = Ok self1 /\
    __init__ lost_too_short = Ok self2 /\
    forall exp log : Q -> Q,
      _logp exp log self1 (py_slice_to [0; 0]%Q (n_cats self1))
        (py_slice_from [0; 0]%Q (n_cats self1))
      = Raise "TypeError" /\
      _logp exp log self2 (py_slice_to [0; 0]%Q (n_cats self2))
        (py_slice_from [0; 0]%Q (n_cats self2))
      = Raise "ValueError".
Proof.
  split; [vm_compute; reflexivity|]. split; [vm_compute; reflexivity|].
  eexists _, _. split; [vm_compute; reflexivity|].
  split; [vm_compute; reflexivity|].
  intros exp log. split; vm_compute; reflexivity.
Qed.

(** ** Cohorts shorter than two periods *)

Lemma py_slice_empty {A : Type} (l : list A) (lo hi : Z) :
  0 <= hi <= lo -> py_slice l lo hi = [].
Proof.
  intros Hb. unfold py_slice, slice_bound. cbv zeta.
  assert ((lo <? 0) = false) as -> by zbool.
  assert ((hi <? 0) = false) as -> by zbool.
  replace (_ - _)%nat with 0%nat by lia. reflexivity.
Qed.

Lemma for_each_Raise {St X : Type} (body : St -> X -> result St) (xs : list X) (x : X) :
  x ∈ xs -> (forall st, exists e, body st x = Raise e) ->
  forall st, exists e, for_each body xs st = Raise e.
Proof.
  intros Hin Hx. induction xs as [|y xs IH]; intros st.
  - apply elem_of_nil in Hin. contradiction.
  - cbn. apply elem_of_cons in Hin as [<-|Hin].
    + destruct (Hx st) as [e ->]. exists e. reflexivity.
    + destruct (body st y) as [st'|e]; cbn; [apply IH; exact Hin|exists e; reflexivity].
Qed.

Section ShortCohorts.
Context {F : Type} `{Number F}.
Variables (exp log : F -> F).

(** The cohort is handed to the recursion whatever its length; with fewer
    than two periods the censoring term cannot be read. *)
Lemma cohort_loglike_short (a b : F) (val : cohort) :
  len val.1 < 2 ->
  cohort_loglike log a b val
  = Raise (if decide (len val.1 = 1) then "TypeError" else "IndexError").
Proof.
  destruct val as [active lost]. unfold len. cbn [fst snd]. intros Hlen.
  unfold cohort_loglike. rewrite recursive_retention_stats_table.
  cbn [mbind result_bind].
  destruct active as [|a0 [|a1 active]]; [| |cbn in Hlen; lia].
  - rewrite !py_slice_empty by (unfold len; cbn; lia). reflexivity.
  - rewrite !py_slice_empty by (unfold len; cbn; lia). reflexivity.
Qed.

Lemma logp_short_raises (self : ShiftedBeta F) (alpha beta : list F)
    (name : string) (cohorts : list cohort) (val : cohort) :
  data self !! name = Some cohorts -> val ∈ cohorts -> len val.1 < 2 ->
  exists e, _logp exp log self alpha beta = Raise e.
Proof.
  intros Hname Hval Hshort.
  assert (Hloop : exists e,
    for_each (category_body exp log self alpha beta)
      (map_to_list (data self)) (of_int 0) = Raise e).
  { apply (for_each_Raise _ _ (name, cohorts));
      [apply elem_of_map_to_list; exact Hname|].
    intros acc. unfold category_body.
    destruct (dict_getitem (imap self) name) as [v|e]; [|exists e; reflexivity].
    cbn [mbind result_bind].
    destruct (combine exp alpha v) as [a|e]; [|exists e; reflexivity].
    cbn [mbind result_bind].
    destruct (combine exp beta v) as [b|e]; [|exists e; reflexivity].
    cbn [mbind result_bind].
    apply (for_each_Raise _ _ val Hval).
    intros acc'. unfold cohort_body.
    rewrite cohort_loglike_short by exact Hshort. eexists. reflexivity. }
  destruct Hloop as [e He]. exists e. unfold _logp. rewrite He. reflexivity.
Qed.
End ShortCohorts.

(** C6, as the code has it: there is no guard on the series length.  On a
    dataset that contains a cohort with fewer than two periods the cohort is
    passed to the recursion like any other and the evaluation raises an
    exception: it returns no value, whatever the coefficients. *)
Theorem logp_short_cohort_raises {F : Type} `{Number F} (exp log : F -> F)
    (d : gmap string (list cohort)) (p : list F)
    (name : string) (cohorts : list cohort) (val : cohort) :
  d !! name = Some cohorts -> val ∈ cohorts -> len val.1 < 2 ->
  exists self : ShiftedBeta F,
    __init__ d = Ok self /\
    exists e : exn,
      _logp exp log self (py_slice_to p (n_cats self)) (py_slice_from p (n_cats self))
      = Raise e.
Proof.
  intros Hname Hval Hshort.
  destruct (init_Ok F d) as (self & Hinit & Hdata & _).
  exists self. split; [exact Hinit|].
  apply (logp_short_raises exp log self _ _ name cohorts val);
    [rewrite Hdata|..]; assumption.
Qed.

Lemma logp_short_cohort_raises_witness :
  exists self : ShiftedBeta Q,
    __init__ one_period_only = Ok self /\
    exists e : exn,
      _logp (fun q => q) (fun q => q) self
        (py_slice_to [0; 0]%Q (n_cats self)) (py_slice_from [0; 0]%Q (n_cats self))
      = Raise e.
Proof.
  apply (logp_short_cohort_raises (fun q : Q => q) (fun q : Q => q)
           one_period_only [0; 0]%Q "a" [([10], [0])] ([10], [0])).
  - reflexivity.
  - apply list_elem_of_here.
  - reflexivity.
Defined.

(** The claim of C6 fails on the one-period dataset: whatever [exp] and
    [log] are, the evaluation ends in a [TypeError] (the logarithm of the
    unused slot [S[0]]) instead of a value. *)
Lemma logp_short_cohort_counterexample :
  one_period_only !! "a" = Some [([10], [0])] /\
  forall exp log : Q -> Q,
    (self ← __init__ one_period_only;
     _logp exp log self (py_slice_to [0; 0]%Q (n_cats self))
       (py_slice_from [0; 0]%Q (n_cats self)))
    = Raise "TypeError".
Proof. split; [reflexivity|]. intros exp log. vm_compute. reflexivity. Qed.

(** ** fit *)

Section FitFacts.
Context {F : Type} `{Number F}.
Variables (exp log : F -> F).
Variable rnd : nat -> F.
Variable minimize :
  (list F -> result F) -> list F -> result (OptimizeResult.t F).

Lemma set_opt_opt (self : ShiftedBeta F) : set_opt self (opt self) = self.
Proof. destruct self. reflexivity. Qed.

(** Lines 234-242 keep the new result whatever came before. *)
Lemma keep_best_overwrites (optimal : option F) (r : OptimizeResult.t F)
    (self : ShiftedBeta F) :
  keep_best optimal r self
  = (Ok (Some (OptimizeResult.fun_ r)), set_opt self (Some (OptimizeResult.x r))).
Proof. destruct optimal; reflexivity. Qed.

Lemma keep_best_loop (runs : list (OptimizeResult.t F)) :
  forall (optimal : option F) (self : ShiftedBeta F),
    for_acc keep_best runs optimal self
    = match last runs with
      | None => (Ok optimal, self)
      | Some r => (Ok (Some (OptimizeResult.fun_ r)),
                   set_opt self (Some (OptimizeResult.x r)))
      end.
Proof.
  induction runs as [|r runs IH]; intros optimal self; [reflexivity|].
  cbn [for_acc]. unfold bind_ at 1. rewrite keep_best_overwrites, IH, last_cons.
  destruct (last runs); reflexivity.
Qed.

(** The restart loop, when the minimizer returns [runs] on [guesses]. *)
Lemma restart_loop_last (self : ShiftedBeta F) (guesses : list (list F))
    (runs : list (OptimizeResult.t F)) :
  Forall2 (fun g r => minimize (objective exp log self) g = Ok r) guesses runs ->
  forall (optimal : option F) (o : option (list F)),
    for_acc (restart_body exp log minimize) guesses optimal (set_opt self o)
    = match last runs with
      | None => (Ok optimal, set_opt self o)
      | Some r => (Ok (Some (OptimizeResult.fun_ r)),
                   set_opt self (Some (OptimizeResult.x r)))
      end.
Proof.
  induction 1 as [|g r guesses runs Hg _ IH]; intros optimal o; [reflexivity|].
  cbn [for_acc]. unfold bind_ at 1. unfold restart_body at 1.
  unfold bind_, get, lift.
  change (objective exp log (set_opt self o)) with (objective exp log self).
  rewrite Hg, keep_best_overwrites.
  change (set_opt (set_opt self o) (Some (OptimizeResult.x r)))
    with (set_opt self (Some (OptimizeResult.x r))).
  rewrite IH, last_cons.
  destruct (last runs); reflexivity.
Qed.


(** The body of the publishing loop never touches [opt]. *)
Lemma publish_body_opt (name : string) (self : ShiftedBeta F) :
  opt (publish_body exp tt name self).2 = opt self.
Proof.
  unfold publish_body, bind_, get, lift, modify.
  destruct (dict_getitem (imap self) name) as [v|e]; [|reflexivity].
  destruct (subscriptable (opt self)) as [o|e] eqn:Ho; [|reflexivity].
  destruct (combine exp (py_slice_to o (n_cats self)) v) as [a|e]; [|reflexivity].
  cbn [opt set_alpha]. rewrite Ho.
  destruct (combine exp (py_slice_from o _) v) as [b|e]; reflexivity.
Qed.

Lemma publish_loop_opt (names : list string) :
  forall self : ShiftedBeta F,
    opt (for_acc (publish_body exp) names tt self).2 = opt self.
Proof.
  induction names as [|name names IH]; intros self; [reflexivity|].
  cbn [for_acc]. unfold bind_ at 1.
  pose proof (publish_body_opt name self) as Hstep.
  destruct (publish_body exp tt name self) as [[[]|e] self1]; cbn [snd] in *.
  - rewrite IH. exact Hstep.
  - exact Hstep.
Qed.


End FitFacts.

(** C1 fails on the code; what the code does instead: after at least one
    restart, [self.opt] is the solution vector of the LAST restart, whatever
    the objective values were (the test on line 240 always holds). *)
Theorem fit_keeps_last_restart {F : Type} `{Number F} (exp log : F -> F)
    (rnd : nat -> F)
    (minimize : (list F -> result F) -> list F -> result (OptimizeResult.t F))
    (self : ShiftedBeta F) (restarts : Z)
    (guesses : list (list F)) (runs : list (OptimizeResult.t F))
    (r_last : OptimizeResult.t F) :
  initial_guesses rnd restarts (n_cats self) = Ok guesses ->
  Forall2 (fun g r => minimize (objective exp log self) g = Ok r) guesses runs ->
  last runs = Some r_last ->
  opt (fit exp log rnd minimize restarts self).2 = Some (OptimizeResult.x r_last).
Proof.
  intros Hguesses Hruns Hlast.
  unfold fit, bind_ at 1, get. unfold bind_ at 1, lift. rewrite Hguesses.
  unfold bind_ at 1.
  rewrite <- (set_opt_opt self) at 1.
  rewrite (restart_loop_last exp log minimize self guesses runs Hruns), Hlast.
  unfold bind_ at 1, get. rewrite publish_loop_opt. reflexivity.
Qed.

(** The failing input: two restarts, the first reaching the objective
    value -3, the second 13.  The lowest value is the first one's, and the
    code keeps the second. *)
Lemma fit_keeps_last_restart_witness :
  exists (self : ShiftedBeta Q) (r1 r2 : OptimizeResult.t Q),
    __init__ two_categories = Ok self /\
    (OptimizeResult.fun_ r1 < OptimizeResult.fun_ r2)%Q /\
    lowest_first r1 [r2] = r1 /\
    opt (fit (fun q => q) (fun q => q) counting_draws stays_put 2 self).2
    = Some (OptimizeResult.x r2).
Proof.
  eexists.
  exists (OptimizeResult.make [-3; 1; 5; 9]%Q (-3)%Q true),
         (OptimizeResult.make [13; 17; 21; 25]%Q 13%Q true).
  split; [vm_compute; reflexivity|].
  split; [reflexivity|]. split; [reflexivity|].
  apply (fit_keeps_last_restart (fun q : Q => q) (fun q : Q => q) counting_draws
           stays_put _ 2 [[-3; 1; 5; 9]; [13; 17; 21; 25]]%Q
           [OptimizeResult.make [-3; 1; 5; 9]%Q (-3)%Q true;
            OptimizeResult.make [13; 17; 21; 25]%Q 13%Q true]).
  - vm_compute. reflexivity.
  - repeat constructor.
  - reflexivity.
Defined.





(** C9, as the code has it: [fit] validates nothing.  On a freshly built
    model with at least one category, [restarts < 0] makes the random
    initialization itself fail ([ValueError]); [restarts = 0] draws an empty
    batch, runs no minimization, and fails on reading [self.opt], still
    [None] ([TypeError]).  Either way the object is left as it was. *)
Theorem fit_without_restarts {F : Type} `{Number F} (exp log : F -> F)
    (rnd : nat -> F)
    (minimize : (list F -> result F) -> list F -> result (OptimizeResult.t F))
    (d : gmap string (list cohort)) (self : ShiftedBeta F) (restarts : Z) :
  __init__ d = Ok self ->
  d <> ∅ ->
  restarts < 1 ->
  fit exp log rnd minimize restarts self
  = (Raise (if restarts <? 0 then "ValueError" else "TypeError"), self).
Proof.
  intros Hinit Hne Hrestarts.
  destruct (init_Ok F d) as (self0 & Hinit0 & _ & Hcats & Hn & _ & _ & Hopt & _).
  rewrite Hinit in Hinit0. injection Hinit0 as <-.
  unfold fit, bind_ at 1, get. unfold bind_ at 1, lift.
  unfold initial_guesses, np_random_random.
  destruct (Z.ltb_spec restarts 0) as [Hneg|Hnonneg].
  - reflexivity.
  - assert (restarts = 0) as -> by lia.
    assert ((2 * n_cats self <? 0) = false) as -> by (rewrite Hn; zbool).
    change (Z.to_nat 0) with 0%nat.
    cbn [orb mbind result_bind seq map for_acc].
    unfold bind_ at 1. unfold ret_. unfold bind_ at 1, get. cbv beta iota.
    destruct (categories self) as [|name names] eqn:Hnames.
    { exfalso. apply Hne. apply map_size_empty_inv.
      pose proof (sorted_keys_length d) as Hsize.
      rewrite <- Hcats in Hsize. symmetry. exact Hsize. }
    destruct (init_imap_category F d self name Hinit) as (v & Hv & _).
    { rewrite Hnames. apply list_elem_of_here. }
    cbn [for_acc]. unfold bind_ at 1. unfold publish_body, bind_, get, lift, dict_getitem.
    rewrite Hv, Hopt. reflexivity.
Qed.

Lemma fit_without_restarts_witness :
  exists self : ShiftedBeta Q,
    __init__ two_categories = Ok self /\
    fit (fun q => q) (fun q => q) counting_draws gives_up 0 self
    = (Raise "TypeError", self).
Proof.
  destruct (init_Ok Q two_categories) as (self & Hinit & _).
  exists self. split; [exact Hinit|].
  apply (fit_without_restarts (fun q : Q => q) (fun q : Q => q) counting_draws
           gives_up two_categories self 0 Hinit).
  - intros Hempty. apply (f_equal (fun m => m !! "a")) in Hempty. discriminate Hempty.
  - lia.
Defined.

(** The claim of C9 fails at [restarts = 0]: whatever the external
    functions are, the error is a [TypeError], not a ConfigurationError;
    and at [restarts = -1] it is numpy's [ValueError], raised by the random
    initialization. *)
Lemma fit_without_restarts_counterexample :
  exists self : ShiftedBeta Q,
    __init__ two_categories = Ok self /\
    forall (exp log : Q -> Q) (rnd : nat -> Q)
           (minimize : (list Q -> result Q) -> list Q -> result (OptimizeResult.t Q)),
      (fit exp log rnd minimize 0 self).1 = Raise "TypeError" /\
      (fit exp log rnd minimize 0 self).1 <> Raise "ConfigurationError" /\
      (fit exp log rnd minimize (-1) self).1 = Raise "ValueError".
Proof.
  eexists. split; [vm_compute; reflexivity|].
  intros exp log rnd minimize. split; [|split].
  - vm_compute. reflexivity.
  - vm_compute. discriminate.
  - vm_compute. reflexivity.
Qed.

(** ** Binary64 *)

Lemma float_add_nan_l (y : float) : (nan + y)%float = nan.
Proof.
  apply Prim2SF_inj. rewrite FloatAxioms.add_spec.
  change (Prim2SF nan) with S754_nan. reflexivity.
Qed.

Lemma float_add_nan_r (x : float) : (x + nan)%float = nan.
Proof.
  apply Prim2SF_inj. rewrite FloatAxioms.add_spec.
  change (Prim2SF nan) with S754_nan. destruct (Prim2SF x); reflexivity.
Qed.

Lemma float_finite_cases (x : float) :
  is_finite x = true ->
  (exists s, Prim2SF x = S754_zero s) \/
  (exists s m e, Prim2SF x = S754_finite s m e).
Proof.
  unfold is_finite, is_nan, is_infinity. rewrite !FloatAxioms.eqb_spec, FloatAxioms.abs_spec.
  destruct (Prim2SF x) as [s|s| |s m e] eqn:E; intros Hf.
  - left. eauto.
  - exfalso. destruct s; vm_compute in Hf; discriminate.
  - exfalso. vm_compute in Hf. discriminate.
  - right. eauto.
Qed.

(** A finite float times zero is a zero. *)
Lemma float_mul_zero (x : float) :
  is_finite x = true -> is_zero (x * 0)%float = true.
Proof.
  intros Hf. unfold is_zero. rewrite FloatAxioms.eqb_spec, FloatAxioms.mul_spec.
  change (Prim2SF 0) with (S754_zero false).
  destruct (float_finite_cases x Hf) as [[s ->]|(s & m & e & ->)];
    destruct s; reflexivity.
Qed.

(** A loop that keeps a NaN and meets an item producing one ends in NaN. *)
Lemma fold_left_from_nan {A : Type} (step : float -> A -> float) (l : list A) :
  (forall x, step nan x = nan) -> fold_left step l nan = nan.
Proof.
  intros Hnan. induction l as [|x l IH]; cbn; [reflexivity|].
  rewrite Hnan. exact IH.
Qed.

Lemma fold_left_meets_nan {A : Type} (step : float -> A -> float) (l : list A) (x0 : A) :
  (forall x, step nan x = nan) -> x0 ∈ l -> (forall acc, step acc x0 = nan) ->
  forall acc, fold_left step l acc = nan.
Proof.
  intros Hnan Hin Hx0. induction l as [|x l IH]; intros acc.
  - apply elem_of_nil in Hin. contradiction.
  - cbn. apply elem_of_cons in Hin as [<-|Hin].
    + rewrite Hx0. apply fold_left_from_nan. exact Hnan.
    + apply IH. exact Hin.
Qed.

Section ZeroCounts.
Variables (exp log : float -> float).
Hypothesis log_zero : log 0%float = neg_infinity.

(** The unguarded product at a zero probability and a zero count. *)
Lemma zero_count_product : (log 0%float * of_int 0)%num = nan.
Proof. rewrite log_zero. reflexivity. Qed.

Lemma cohort_term_nan (a b : float) (active lost : list Z) :
  (exists t : nat, (1 <= t < length active)%nat /\ nth t lost 0 = 0 /\
                   P_rec a b (t - 1) = 0%float) \/
  (nth (length active - 1) active 0 = 0 /\
   S_rec a b (length active - 2) = 0%float) ->
  cohort_term log a b (active, lost) = nan.
Proof.
  unfold cohort_term. intros [(t & Ht & Hlost & HP)|[Hactive HS]].
  - assert (Hdied : died_sum log a b lost (length active) = nan).
    { unfold died_sum.
      apply (fold_left_meets_nan _ _ t).
      - intros x. apply float_add_nan_l.
      - apply list_elem_of_In, in_seq. lia.
      - intros acc. rewrite HP, Hlost, zero_count_product.
        apply float_add_nan_r. }
    rewrite Hdied. apply float_add_nan_l.
  - unfold still_active_term. rewrite HS, Hactive, zero_count_product.
    apply float_add_nan_r.
Qed.

Lemma loglike_sum_nan (self : ShiftedBeta float) (p : list float)
    (name : string) (cohorts : list cohort) (active lost : list Z) (v : list bool) :
  data self !! name = Some cohorts -> (active, lost) ∈ cohorts ->
  imap self !! name = Some v ->
  cohort_term log
    (category_parameter exp (take (Z.to_nat (n_cats self)) p) v)
    (category_parameter exp (drop (Z.to_nat (n_cats self)) p) v)
    (active, lost) = nan ->
  loglike_sum exp log self p = nan.
Proof.
  intros Hname Hval Hv Hterm. unfold loglike_sum.
  apply (fold_left_meets_nan _ _ (name, cohorts)).
  - intros item. apply fold_left_from_nan. intros val. apply float_add_nan_l.
  - apply elem_of_map_to_list. exact Hname.
  - intros acc. cbv zeta. cbn [fst snd]. rewrite Hv. cbn [default from_option].
    change (id v) with v.
    apply (fold_left_meets_nan _ _ (active, lost)).
    + intros val. apply float_add_nan_l.
    + exact Hval.
    + intros acc'. rewrite Hterm. apply float_add_nan_r.
Qed.
End ZeroCounts.

(** C5, as the code has it: a term with a zero count is the product
    [log(P) * 0], computed without a guard.  It is a zero whenever the
    logarithm is finite.  Where [P[t]] (or [S[length-1]]) is exactly 0 and
    [log] returns [-inf] there, as numpy's does, the product is NaN and the
    value [_logp] returns is NaN. *)
Theorem zero_count_term_unguarded (exp log : float -> float) :
  (forall q : float,
     is_finite (log q) = true -> is_zero (log q * of_int 0)%num = true) /\
  (log 0%float = neg_infinity ->
   forall (d : gmap string (list cohort)) (p : list float) (self : ShiftedBeta float)
          (name : string) (cohorts : list cohort) (active lost : list Z)
          (v : list bool),
     __init__ d = Ok self -> dataset_ok d = true ->
     len p = 2 * Z.of_nat (size d) ->
     d !! name = Some cohorts -> (active, lost) ∈ cohorts ->
     imap self !! name = Some v ->
     let a := category_parameter exp (take (size d) p) v in
     let b := category_parameter exp (drop (size d) p) v in
     (exists t : nat, (1 <= t < length active)%nat /\ nth t lost 0 = 0 /\
                      P_rec a b (t - 1) = 0%float) \/
     (nth (length active - 1) active 0 = 0 /\
      S_rec a b (length active - 2) = 0%float) ->
     _logp exp log self (py_slice_to p (n_cats self)) (py_slice_from p (n_cats self))
     = Ok nan).
Proof.
  split.
  - intros q Hq. apply (float_mul_zero (log q) Hq).
  - intros Hlog d p self name cohorts active lost v Hinit Hok Hp Hname Hval Hv a b Hzero.
    rewrite (logp_Ok exp log d self p Hinit Hok Hp).
    destruct (init_Ok float d) as (self0 & Hinit0 & Hdata & _ & Hn & _).
    rewrite Hinit in Hinit0. injection Hinit0 as <-.
    rewrite (loglike_sum_nan exp log self p name cohorts active lost v);
      [reflexivity|rewrite Hdata; exact Hname|exact Hval|exact Hv|].
    rewrite Hn, Nat2Z.id. apply (cohort_term_nan log Hlog). exact Hzero.
Qed.

Lemma zero_count_term_unguarded_witness :
  exists self : ShiftedBeta float,
    __init__ nobody_lost = Ok self /\
    _logp exp_sample log_sample self
      (py_slice_to [-1000; 0]%float (n_cats self))
      (py_slice_from [-1000; 0]%float (n_cats self)) = Ok nan.
Proof.
  destruct (init_Ok float nobody_lost) as (self & Hinit & _).
  exists self. split; [exact Hinit|].
  apply (proj2 (zero_count_term_unguarded exp_sample log_sample) eq_refl
           nobody_lost [-1000; 0]%float self "a"
           [([10; 10; 10], [0; 0; 0])] [10; 10; 10] [0; 0; 0] [true]).
  - exact Hinit.
  - vm_compute. reflexivity.
  - reflexivity.
  - reflexivity.
  - apply list_elem_of_here.
  - destruct (init_Ok float nobody_lost) as (self0 & Hinit0 & _ & Hcats & _ & _ & _ & _ & Himap).
    rewrite Hinit in Hinit0. injection Hinit0 as <-.
    apply (Himap 0%nat "a"). rewrite Hcats. vm_compute. reflexivity.
  - left. exists 1%nat. split; [cbn; lia|]. split; vm_compute; reflexivity.
Defined.

(** The claim of C5 fails where nobody is lost and the alpha coefficient is
    -1000: [exp] underflows to [alpha = 0.0], so [P[1] = P[2] = 0.0]; both
    zero-count terms are [-inf * 0] and the value returned is NaN, for
    every [exp] and [log] that agree with numpy's at the four points
    used. *)
Lemma zero_count_counterexample :
  dataset_ok nobody_lost = true /\
  forall exp log : float -> float,
    exp 0%float = 1%float -> exp (-1000)%float = 0%float ->
    log 0%float = neg_infinity -> log 1%float = 0%float ->
    (self ← __init__ nobody_lost;
     _logp exp log self (py_slice_to [-1000; 0]%float (n_cats self))
       (py_slice_from [-1000; 0]%float (n_cats self)))
    = Ok nan.
Proof.
  split; [vm_compute; reflexivity|].
  intros exp log Hexp0 Hexp Hlog0 Hlog1.
  vm_compute. rewrite Hexp, Hexp0. vm_compute. rewrite Hlog0, Hlog1.
  vm_compute. reflexivity.
Qed.

(** The claim of C4 fails in binary64: with [alpha = 1e17] and [beta = 1]
    the sum [alpha + beta] rounds to [alpha], so [P[1] = 1.0] and
    [S[1] = 0.0]; then [P[2] = 1e-17] and [S[2] = 0.0 - 1e-17 < 0]. *)
Lemma retention_stats_rounding_counterexample :
  exists (P S : list (option float)) (s2 : float),
    PrimFloat.ltb 0 1e17 = true /\ PrimFloat.ltb 0 1 = true /\
    _recursive_retention_stats 1e17%float 1%float 3 = Ok (P, S) /\
    py_getitem S 2 = Ok (Some s2) /\
    PrimFloat.ltb s2 0 = true.
Proof.
  eexists _, _, _. split; [reflexivity|]. split; [reflexivity|].
  split; [vm_compute; reflexivity|]. split; vm_compute; reflexivity.
Qed.


(** * Further properties of the code *)

(** ** The recursion over a longer horizon *)

Lemma table_prefix {F : Type} (f : nat -> F) (k k' : nat) :
  (k <= k')%nat -> table f k `prefix_of` table f k'.
Proof.
  intros Hk. exists (map (fun i => Some (f i)) (seq k (k' - k))).
  unfold table. replace k' with (k + (k' - k))%nat at 1 by lia.
  rewrite seq_app, map_app. reflexivity.
Qed.

(** X1: asking for more periods only appends.  Whatever the numbers are
    and whichever divisors make [/] raise: if the call for [num_periods = m]
    returns, then so does the call for any [n <= m], and the lists it
    returns are prefixes of those for [m]; the values of the periods already
    computed do not depend on the horizon. *)
Theorem recursive_retention_stats_raising_prefix {F : Type} `{Number F}
    (zero_divisor : F -> bool) (alpha beta : F) (n m : Z)
    (P' S' : list (option F)) :
  n <= m ->
  _recursive_retention_stats_raising zero_divisor alpha beta m = Ok (P', S') ->
  exists P S : list (option F),
    _recursive_retention_stats_raising zero_divisor alpha beta n = Ok (P, S) /\
    P `prefix_of` P' /\ S `prefix_of` S'.
Proof.
  intros Hnm Hm.
  destruct (recursive_retention_stats_raising_inv zero_divisor alpha beta m _ Hm)
    as [H0 Ht].
  rewrite recursive_retention_stats_raising_Ok in Hm by assumption.
  rewrite recursive_retention_stats_table in Hm. injection Hm as <- <-.
  eexists _, _. split.
  { rewrite recursive_retention_stats_raising_Ok;
      [apply recursive_retention_stats_table|exact H0|].
    intros t Hrange. apply Ht. lia. }
  split; apply table_prefix; lia.
Qed.

Lemma recursive_retention_stats_raising_prefix_witness :
  exists P S P' S' : list (option Q),
    _recursive_retention_stats_raising Q_is_zero (1 # 1)%Q (2 # 1)%Q 5 = Ok (P', S') /\
    _recursive_retention_stats_raising Q_is_zero (1 # 1)%Q (2 # 1)%Q 3 = Ok (P, S) /\
    P `prefix_of` P' /\ S `prefix_of` S'.
Proof.
  assert (Hm : exists P' S' : list (option Q),
            _recursive_retention_stats_raising Q_is_zero (1 # 1)%Q (2 # 1)%Q 5
            = Ok (P', S')).
  { eexists _, _. vm_compute. reflexivity. }
  destruct Hm as (P' & S' & Hm).
  destruct (recursive_retention_stats_raising_prefix Q_is_zero (1 # 1)%Q (2 # 1)%Q
              3 5 P' S' ltac:(lia) Hm) as (P & S & Hn & HP & HS).
  exists P, S, P', S'. split; [exact Hm|]. split; [exact Hn|]. split; assumption.
Defined.

(** ** The recursion in exact arithmetic, continued *)

Lemma py_slice_table_upto {F : Type} (f : nat -> F) (k j : nat) (hi : Z) :
  (j <= k)%nat -> hi = 1 + Z.of_nat j ->
  py_slice (table f k) 1 hi = map (fun i => Some (f i)) (seq 0 j).
Proof.
  intros Hj ->. unfold py_slice, slice_bound, len. rewrite table_length. cbv zeta.
  assert ((1 <? 0) = false) as -> by reflexivity.
  assert ((1 + Z.of_nat j <? 0) = false) as -> by zbool.
  replace (Z.to_nat (Z.min (Z.max 1 0) (Z.of_nat (S k)))) with 1%nat by lia.
  replace (Z.to_nat (Z.min (Z.max (1 + Z.of_nat j) 0) (Z.of_nat (S k))))
    with (S j) by lia.
  unfold table. cbn [drop]. rewrite drop_0.
  replace (S j - 1)%nat with j by lia.
  replace k with (j + (k - j))%nat by lia.
  rewrite seq_app, map_app, take_app_length'; [reflexivity|].
  rewrite length_map, length_seq. reflexivity.
Qed.

Section RetentionExactMore.
Variables (alpha beta : Q).
Hypothesis alpha_pos : (0 < alpha)%Q.
Hypothesis beta_pos : (0 < beta)%Q.

Local Abbreviation P := (P_rec alpha beta).
Local Abbreviation Sv := (S_rec alpha beta).
Local Notation "# k" := (inject_Z (Z.of_nat k)) (at level 8, format "# k").

(** From one period to the next: the share [alpha / (alpha + beta + k + 1)]
    of the survivors leaves, the rest stays. *)
Lemma hazard_step (k : nat) :
  (P (S k) * (alpha + beta + #k + 1) == alpha * Sv k /\
   Sv (S k) * (alpha + beta + #k + 1) == (beta + #k + 1) * Sv k)%Q.
Proof.
  destruct (retention_invariant alpha beta alpha_pos beta_pos k) as (HP & HS & Hinv).
  pose proof (inject_nat_nonneg k) as Hk.
  pose proof (P_rec_step alpha beta alpha_pos beta_pos k) as HPs.
  assert (E : (P (S k) * (alpha + beta + #k + 1) == alpha * Sv k)%Q).
  { rewrite HPs, <- Hinv. field. lra. }
  split; [exact E|]. rewrite S_rec_step. lra.
Qed.

Lemma P_rec_decreasing (k : nat) : (P (S k) < P k)%Q.
Proof.
  destruct (retention_invariant alpha beta alpha_pos beta_pos k) as (HP & HS & Hinv).
  destruct (retention_invariant alpha beta alpha_pos beta_pos (S k)) as (HP' & _).
  destruct (hazard_step k) as [E _].
  pose proof (inject_nat_nonneg k) as Hk.
  nra.
Qed.

Lemma S_rec_decreasing (k : nat) : (Sv (S k) < Sv k)%Q.
Proof.
  destruct (retention_invariant alpha beta alpha_pos beta_pos (S k)) as (HP' & _).
  rewrite S_rec_step. lra.
Qed.
End RetentionExactMore.

(** X2: in exact arithmetic no probability mass is lost: for
    [alpha, beta > 0] and every period [t] in [1 .. num_periods - 1], the
    churn probabilities up to [t] and the survival probability at [t] add
    up to 1, [sum(P[1:t+1]) + S[t] = 1]. *)
Theorem retention_mass_conserved (alpha beta : Q) (num_periods t : Z) :
  (0 < alpha)%Q -> (0 < beta)%Q -> 1 <= t < num_periods ->
  exists (P S : list (option Q)) (ps : list Q) (s : Q),
    _recursive_retention_stats alpha beta num_periods = Ok (P, S) /\
    as_numbers (py_slice P 1 (t + 1)) = Ok ps /\
    py_getitem S t = Ok (Some s) /\
    (py_sum ps + s == 1)%Q.
Proof.
  intros _ _ Ht. eexists _, _, _, _.
  split; [apply recursive_retention_stats_table|].
  rewrite (py_slice_table_upto _ _ (Z.to_nat t)) by lia.
  rewrite <- (map_map (P_rec alpha beta) Some), as_numbers_Some.
  split; [reflexivity|].
  rewrite table_getitem by lia. split; [reflexivity|].
  replace (Z.to_nat t) with (S (Z.to_nat (t - 1))) by lia.
  rewrite churn_mass. ring.
Qed.

Lemma retention_mass_conserved_witness :
  exists (P S : list (option Q)) (ps : list Q) (s : Q),
    _recursive_retention_stats (1 # 1)%Q (2 # 1)%Q 4 = Ok (P, S) /\
    as_numbers (py_slice P 1 (2 + 1)) = Ok ps /\
    py_getitem S 2 = Ok (Some s) /\
    (py_sum ps + s == 1)%Q.
Proof.
  apply (retention_mass_conserved (1 # 1)%Q (2 # 1)%Q 4 2);
    [reflexivity | reflexivity | lia].
Defined.

(** X3: in exact arithmetic the recursion is the beta-geometric hazard: for
    [alpha, beta > 0] and [t] in [2 .. num_periods - 1],
    [P[t] * (alpha + beta + t - 1) = alpha * S[t-1]] and
    [S[t] * (alpha + beta + t - 1) = (beta + t - 1) * S[t-1]]: of those who
    survived period [t - 1] the share [alpha / (alpha + beta + t - 1)]
    churns at [t]. *)
Theorem retention_hazard (alpha beta : Q) (num_periods t : Z) :
  (0 < alpha)%Q -> (0 < beta)%Q -> 2 <= t < num_periods ->
  exists (P S : list (option Q)) (p_t s_prev s_t : Q),
    _recursive_retention_stats alpha beta num_periods = Ok (P, S) /\
    py_getitem P t = Ok (Some p_t) /\
    py_getitem S (t - 1) = Ok (Some s_prev) /\
    py_getitem S t = Ok (Some s_t) /\
    (p_t * (alpha + beta + inject_Z t - 1) == alpha * s_prev)%Q /\
    (s_t * (alpha + beta + inject_Z t - 1) == (beta + inject_Z t - 1) * s_prev)%Q.
Proof.
  intros Ha Hb Ht. eexists _, _, _, _, _.
  split; [apply recursive_retention_stats_table|].
  rewrite !table_getitem by lia. do 3 (split; [reflexivity|]).
  replace (Z.to_nat (t - 1)) with (S (Z.to_nat (t - 1 - 1))) by lia.
  destruct (hazard_step alpha beta Ha Hb (Z.to_nat (t - 1 - 1))) as [E1 E2].
  assert (Et : (inject_Z t == inject_Z (Z.of_nat (Z.to_nat (t - 1 - 1))) + 2)%Q).
  { rewrite <- (inject_Z_plus _ 2). apply inject_Z_injective. lia. }
  rewrite Et. split; nra.
Qed.

Lemma retention_hazard_witness :
  exists (P S : list (option Q)) (p_t s_prev s_t : Q),
    _recursive_retention_stats (1 # 1)%Q (2 # 1)%Q 4 = Ok (P, S) /\
    py_getitem P 3 = Ok (Some p_t) /\
    py_getitem S (3 - 1) = Ok (Some s_prev) /\
    py_getitem S 3 = Ok (Some s_t) /\
    (p_t * ((1 # 1) + (2 # 1) + inject_Z 3 - 1) == (1 # 1) * s_prev)%Q /\
    (s_t * ((1 # 1) + (2 # 1) + inject_Z 3 - 1) == ((2 # 1) + inject_Z 3 - 1) * s_prev)%Q.
Proof.
  apply (retention_hazard (1 # 1)%Q (2 # 1)%Q 4 3);
    [reflexivity | reflexivity | lia].
Defined.

(** X4: in exact arithmetic, for [alpha, beta > 0], every [P[t]] and
    [S[t]] with [t] in [1 .. num_periods - 1] is strictly positive (its
    logarithm is defined), and both sequences strictly decrease from each
    period to the next. *)
Theorem retention_strictly_decreasing (alpha beta : Q) (num_periods : Z) :
  (0 < alpha)%Q -> (0 < beta)%Q -> 2 <= num_periods ->
  exists P S : list (option Q),
    _recursive_retention_stats alpha beta num_periods = Ok (P, S) /\
    (forall t : Z, 1 <= t < num_periods ->
       exists p s : Q,
         py_getitem P t = Ok (Some p) /\ py_getitem S t = Ok (Some s) /\
         (0 < p)%Q /\ (0 < s)%Q) /\
    (forall t : Z, 1 <= t -> t + 1 < num_periods ->
       exists p p' s s' : Q,
         py_getitem P t = Ok (Some p) /\ py_getitem P (t + 1) = Ok (Some p') /\
         py_getitem S t = Ok (Some s) /\ py_getitem S (t + 1) = Ok (Some s') /\
         (p' < p)%Q /\ (s' < s)%Q).
Proof.
  intros Ha Hb Hn. eexists _, _.
  split; [apply recursive_retention_stats_table|]. split.
  - intros t Ht. eexists _, _. rewrite !table_getitem by lia.
    do 2 (split; [reflexivity|]).
    destruct (retention_invariant alpha beta Ha Hb (Z.to_nat (t - 1))) as (HP & HS & _).
    split; assumption.
  - intros t Ht Ht'. eexists _, _, _, _. rewrite !table_getitem by lia.
    do 4 (split; [reflexivity|]).
    replace (Z.to_nat (t + 1 - 1)) with (S (Z.to_nat (t - 1))) by lia.
    split; [apply P_rec_decreasing|apply S_rec_decreasing]; assumption.
Qed.

Lemma retention_strictly_decreasing_witness :
  exists P S : list (option Q),
    _recursive_retention_stats (1 # 1)%Q (2 # 1)%Q 4 = Ok (P, S) /\
    exists p p' : Q,
      py_getitem P 1 = Ok (Some p) /\ py_getitem P (1 + 1) = Ok (Some p') /\
      (p' < p)%Q.
Proof.
  destruct (retention_strictly_decreasing (1 # 1)%Q (2 # 1)%Q 4)
    as (P & S & Hrun & _ & Hdec); [reflexivity | reflexivity | lia |].
  destruct (Hdec 1 ltac:(lia) ltac:(lia)) as (p & p' & s & s' & HP & HP' & _ & _ & Hlt & _).
  exists P, S. split; [exact Hrun|]. exists p, p'. repeat split; assumption.
Defined.

(** ** The constructor and the indicator map, continued *)

Lemma string_le_total : Total string_le.
Proof. intros a b. unfold string_le. apply String.leb_total. Qed.

(** The indicator map has an entry for the keys of the dataset only. *)
Lemma init_imap_None (F : Type) (d : gmap string (list cohort)) (self : ShiftedBeta F)
    (name : string) :
  __init__ d = Ok self -> d !! name = None -> imap self !! name = None.
Proof.
  unfold __init__, indicator_map. cbn [categories n_cats imap].
  destruct (indicator_loop (Z.of_nat (size d)) _ (sorted_keys_NoDup d) 0 ∅)
    as (m' & Hrun & _ & Hout).
  { rewrite sorted_keys_length. lia. }
  unfold enumerate. rewrite Hrun. cbn [mbind result_bind].
  intros [= <-] Hname. cbn [imap set_imap].
  rewrite Hout; [apply lookup_empty|].
  unfold sorted. rewrite merge_sort_Permutation.
  intros Hin. apply list_elem_of_fmap in Hin as ([name' cohorts] & -> & Hin).
  apply elem_of_map_to_list in Hin. cbn in Hname. congruence.
Qed.

Lemma init_categories_elem (F : Type) (d : gmap string (list cohort))
    (self : ShiftedBeta F) (name : string) :
  __init__ d = Ok self -> name ∈ categories self -> is_Some (d !! name).
Proof.
  intros Hinit Hin.
  destruct (init_Ok F d) as (self' & Hinit' & _ & Hcats & _).
  rewrite Hinit in Hinit'. injection Hinit' as <-.
  rewrite Hcats in Hin. unfold sorted in Hin. rewrite merge_sort_Permutation in Hin.
  apply list_elem_of_fmap in Hin as ([name' cohorts] & -> & Hin).
  apply elem_of_map_to_list in Hin. exists cohorts. exact Hin.
Qed.

(** X5: the constructor lists every key of the dataset exactly once, in
    ascending order: [categories] has no duplicates, is sorted, and a name
    is in it exactly when it is a key of the data. *)
Theorem init_categories_sorted (F : Type) (d : gmap string (list cohort)) :
  exists self : ShiftedBeta F,
    __init__ d = Ok self /\
    NoDup (categories self) /\
    Sorted string_le (categories self) /\
    forall name : string, name ∈ categories self <-> is_Some (d !! name).
Proof.
  destruct (init_Ok F d) as (self & Hinit & _ & Hcats & _).
  exists self. split; [exact Hinit|]. split; [|split].
  - rewrite Hcats. apply sorted_keys_NoDup.
  - rewrite Hcats. apply (@Sorted_merge_sort _ string_le _ string_le_total).
  - intros name. split.
    + apply (init_categories_elem F d self name Hinit).
    + intros [cohorts Hname].
      apply (init_categories_dom F d self name cohorts Hinit Hname).
Qed.

(** X6: what [get_params] reports on a constructed model is consistent:
    [n_categories] is the number of keys of the dataset and the length of
    [categories], and [imap] has an entry exactly for the keys of the
    dataset, each a vector of length [n_categories]. *)
Theorem get_params_consistent (F : Type) (d : gmap string (list cohort)) :
  exists self : ShiftedBeta F,
    __init__ d = Ok self /\
    Params.n_categories (get_params self) = Z.of_nat (size d) /\
    len (Params.categories (get_params self)) = Params.n_categories (get_params self) /\
    forall name : string,
      match Params.imap (get_params self) !! name with
      | Some v => is_Some (d !! name) /\ len v = Params.n_categories (get_params self)
      | None => d !! name = None
      end.
Proof.
  destruct (init_Ok F d) as (self & Hinit & _ & Hcats & Hn & _).
  exists self. split; [exact Hinit|]. unfold get_params. cbn.
  split; [exact Hn|].
  split; [unfold len; rewrite Hcats, sorted_keys_length, Hn; reflexivity|].
  intros name. destruct (d !! name) as [cohorts|] eqn:Hname.
  - destruct (init_imap_total F d self name cohorts Hinit Hname) as (v & -> & Hlen).
    split; [eauto|]. unfold len. rewrite Hlen, Hn. reflexivity.
  - rewrite (init_imap_None F d self name Hinit Hname). reflexivity.
Qed.

(** X7: [indicator_map] is idempotent: called again on a constructed model
    it succeeds and leaves the model as it is. *)
Theorem indicator_map_idempotent (F : Type) (d : gmap string (list cohort))
    (self : ShiftedBeta F) :
  __init__ d = Ok self -> indicator_map self = Ok self.
Proof.
  intros Hinit.
  destruct (init_Ok F d) as (self' & Hinit' & _ & Hcats & Hn & _ & _ & _ & Himap).
  rewrite Hinit in Hinit'. injection Hinit' as <-.
  unfold indicator_map, enumerate.
  destruct (indicator_loop (n_cats self) (categories self)) with (k := 0%nat)
    (m := imap self) as (m' & Hrun & Hin & Hout).
  { rewrite Hcats. apply sorted_keys_NoDup. }
  { rewrite Hn, Hcats, sorted_keys_length. lia. }
  rewrite Hrun. cbn [mbind result_bind]. f_equal.
  assert (m' = imap self) as ->.
  { apply map_eq. intros name.
    destruct (decide (name ∈ categories self)) as [Hname|Hname].
    - apply list_elem_of_lookup in Hname as [i Hi].
      rewrite (Hin i name Hi), (Himap i name Hi), Hn, Nat2Z.id. reflexivity.
    - apply Hout. exact Hname. }
  destruct self. reflexivity.
Qed.

Lemma indicator_map_idempotent_witness :
  exists self : ShiftedBeta Q,
    __init__ two_categories = Ok self /\ indicator_map self = Ok self.
Proof.
  destruct (init_Ok Q two_categories) as (self & Hinit & _).
  exists self. split; [exact Hinit|].
  apply (indicator_map_idempotent Q two_categories self Hinit).
Defined.

(** ** Rebuilding a category's parameter *)

(** X8: which coefficients make up a category's parameter.  For the
    category at index [i] of [categories] and a coefficient list of length
    [n_cats], [exp(coeffs[bool_ind].sum())] is [exp(coeffs[0])] for the
    first category and [exp(coeffs[0] + coeffs[i])] for any other: the
    first category is the baseline every other one is measured against. *)
Theorem category_parameter_intercept {F : Type} `{Number F} (exp : F -> F)
    (d : gmap string (list cohort)) (self : ShiftedBeta F) (coeffs : list F)
    (i : nat) (category : string) (c0 ci : F) :
  __init__ d = Ok self ->
  len coeffs = n_cats self ->
  categories self !! i = Some category ->
  coeffs !! 0%nat = Some c0 -> coeffs !! i = Some ci ->
  exists bool_ind : list bool,
    imap self !! category = Some bool_ind /\
    combine exp coeffs bool_ind
    = Ok (exp (if decide (i = 0%nat) then c0 else (c0 + ci)%num)).
Proof.
  intros Hinit Hlen Hi H0 Hci.
  destruct (init_Ok F d) as (self' & Hinit' & _ & Hcats & Hn & _ & _ & _ & Himap).
  rewrite Hinit in Hinit'. injection Hinit' as <-.
  pose proof (lookup_lt_Some _ _ _ Hi) as Hlt.
  rewrite Hcats, sorted_keys_length in Hlt.
  eexists. split; [apply (Himap i category Hi)|].
  unfold len in Hlen.
  rewrite combine_Ok by (rewrite !length_insert, length_replicate; lia).
  unfold category_parameter.
  rewrite (mask_select_indicator coeffs (size d) i c0 ci H0 Hci Hlt).
  destruct (decide (i = 0%nat)); reflexivity.
Qed.

Lemma category_parameter_intercept_witness :
  exists (self : ShiftedBeta Q) (bool_ind : list bool),
    __init__ two_categories = Ok self /\
    imap self !! "b" = Some bool_ind /\
    combine (fun q => q) [5; 7]%Q bool_ind = Ok (5 + 7)%Q.
Proof.
  destruct (init_Ok Q two_categories) as (self & Hinit & _ & Hcats & _).
  destruct (category_parameter_intercept (fun q : Q => q) two_categories self
              [5; 7]%Q 1 "b" 5%Q 7%Q Hinit) as (v & Hv & Hc).
  - destruct (init_Ok Q two_categories) as (self' & Hinit' & _ & _ & Hn & _).
    rewrite Hinit in Hinit'. injection Hinit' as <-. rewrite Hn. reflexivity.
  - rewrite Hcats. vm_compute. reflexivity.
  - reflexivity.
  - reflexivity.
  - exists self, v. split; [exact Hinit|]. split; [exact Hv|exact Hc].
Defined.

(** ** fit, continued *)

Section FitMore.
Context {F : Type} `{Number F}.
Variables (exp log : F -> F).
Variable rnd : nat -> F.
Variable minimize :
  (list F -> result F) -> list F -> result (OptimizeResult.t F).

Lemma same_setup_refl (self : ShiftedBeta F) : same_setup self self.
Proof. repeat split. Qed.

Lemma same_setup_trans (s1 s2 s3 : ShiftedBeta F) :
  same_setup s1 s2 -> same_setup s2 s3 -> same_setup s1 s3.
Proof.
  intros (A1 & A2 & A3 & A4) (B1 & B2 & B3 & B4).
  repeat split; congruence.
Qed.

Lemma restart_body_setup (optimal : option F) (guess : list F) (self : ShiftedBeta F) :
  same_setup self (restart_body exp log minimize optimal guess self).2.
Proof.
  unfold restart_body, bind_, get, lift.
  destruct (minimize (objective exp log self) guess) as [r|e];
    [|apply same_setup_refl].
  rewrite keep_best_overwrites. repeat split.
Qed.

Lemma publish_body_setup (name : string) (self : ShiftedBeta F) :
  same_setup self (publish_body exp tt name self).2.
Proof.
  unfold publish_body, bind_, get, lift, modify.
  destruct (dict_getitem (imap self) name) as [v|e]; [|apply same_setup_refl].
  destruct (subscriptable (opt self)) as [o|e] eqn:Ho; [|apply same_setup_refl].
  destruct (combine exp (py_slice_to o (n_cats self)) v) as [a|e];
    [|apply same_setup_refl].
  cbn [opt set_alpha]. rewrite Ho.
  destruct (combine exp (py_slice_from o _) v) as [b|e]; repeat split.
Qed.

Lemma for_acc_setup {X Acc : Type} (body : Acc -> X -> action (ShiftedBeta F) Acc)
    (xs : list X) :
  (forall acc x self, same_setup self (body acc x self).2) ->
  forall (acc : Acc) (self : ShiftedBeta F),
    same_setup self (for_acc body xs acc self).2.
Proof.
  intros Hbody. induction xs as [|x xs IH]; intros acc self;
    [apply same_setup_refl|].
  cbn [for_acc]. unfold bind_ at 1.
  pose proof (Hbody acc x self) as Hstep.
  destruct (body acc x self) as [[acc'|e] self1]; cbn [snd] in *.
  - apply (same_setup_trans _ self1); [exact Hstep|apply IH].
  - exact Hstep.
Qed.

Lemma for_acc_app {St X Acc : Type} (body : Acc -> X -> action St Acc)
    (xs ys : list X) (acc : Acc) (st : St) :
  for_acc body (xs ++ ys) acc st
  = match for_acc body xs acc st with
    | (Ok acc', st') => for_acc body ys acc' st'
    | (Raise e, st') => (Raise e, st')
    end.
Proof.
  revert acc st. induction xs as [|x xs IH]; intros acc st; [reflexivity|].
  cbn [app for_acc]. unfold bind_.
  destruct (body acc x st) as [[acc'|e] st']; [apply IH|reflexivity].
Qed.

End FitMore.

Lemma fit_same_setup {F : Type} `{Number F} (exp log : F -> F)
    (rnd : nat -> F)
    (minimize : (list F -> result F) -> list F -> result (OptimizeResult.t F))
    (restarts : Z) (self : ShiftedBeta F) :
  same_setup self (fit exp log rnd minimize restarts self).2.
Proof.
  unfold fit, bind_ at 1, get. unfold bind_ at 1, lift.
  destruct (initial_guesses rnd restarts (n_cats self)) as [guesses|e];
    [|apply same_setup_refl].
  unfold bind_ at 1.
  pose proof (for_acc_setup (restart_body exp log minimize) guesses
                (restart_body_setup exp log minimize) None self) as Hloop.
  destruct (for_acc (restart_body exp log minimize) guesses None self)
    as [[optimal|e] self1]; cbn [snd] in Hloop; [|exact Hloop].
  unfold bind_ at 1, get.
  apply (same_setup_trans _ self1); [exact Hloop|].
  apply (for_acc_setup (publish_body exp) (categories self1)).
  intros [] name self2. apply publish_body_setup.
Qed.

(** X9: [fit] changes nothing but [alpha], [beta] and [opt]: however it
    ends, with whatever minimizer and number of restarts, the dataset, the
    category list, [n_cats] and the indicator map of the object are the
    ones it started with. *)
Theorem fit_keeps_setup {F : Type} `{Number F} (exp log : F -> F)
    (rnd : nat -> F)
    (minimize : (list F -> result F) -> list F -> result (OptimizeResult.t F))
    (restarts : Z) (self : ShiftedBeta F) :
  data (fit exp log rnd minimize restarts self).2 = data self /\
  categories (fit exp log rnd minimize restarts self).2 = categories self /\
  n_cats (fit exp log rnd minimize restarts self).2 = n_cats self /\
  imap (fit exp log rnd minimize restarts self).2 = imap self.
Proof. apply fit_same_setup. Qed.

(** X10: an exception inside a minimization aborts [fit]: the restarts
    after it are not run, the exception is the outcome, [alpha] and [beta]
    are left as they were, and [opt] holds the solution of the restart
    before the failing one (it is unchanged when the first one fails). *)
Theorem fit_aborts_on_exception {F : Type} `{Number F} (exp log : F -> F)
    (rnd : nat -> F)
    (minimize : (list F -> result F) -> list F -> result (OptimizeResult.t F))
    (restarts : Z) (self : ShiftedBeta F)
    (before after : list (list F)) (guess : list F)
    (runs : list (OptimizeResult.t F)) (e : exn) :
  initial_guesses rnd restarts (n_cats self) = Ok (before ++ guess :: after) ->
  Forall2 (fun g r => minimize (objective exp log self) g = Ok r) before runs ->
  minimize (objective exp log self) guess = Raise e ->
  fit exp log rnd minimize restarts self
  = (Raise e,
     set_opt self (match last runs with
                   | Some r => Some (OptimizeResult.x r)
                   | None => opt self
                   end)).
Proof.
  intros Hguesses Hruns Hraise.
  unfold fit, bind_ at 1, get. unfold bind_ at 1, lift. rewrite Hguesses.
  unfold bind_ at 1. rewrite for_acc_app.
  rewrite <- (set_opt_opt self) at 1.
  rewrite (restart_loop_last exp log minimize self before runs Hruns).
  destruct (last runs) as [r|]; cbn [for_acc]; unfold bind_ at 1;
    unfold restart_body, bind_, get, lift;
    change (objective exp log (set_opt self _)) with (objective exp log self);
    rewrite Hraise; reflexivity.
Qed.

(** A minimizer that fails on every start whose first coordinate is
    above 0, and otherwise stays where it starts. *)
Lemma fit_aborts_on_exception_witness :
  exists self : ShiftedBeta Q,
    __init__ two_categories = Ok self /\
    fit (fun q => q) (fun q => q) counting_draws
      (fun obj g => if Qle_bool (hd 0%Q g) 0 then stays_put obj g
                    else Raise "FloatingPointError") 3 self
    = (Raise "FloatingPointError", set_opt self (Some [-3; 1; 5; 9]%Q)).
Proof.
  destruct (init_Ok Q two_categories) as (self & Hinit & _ & _ & Hn & _).
  exists self. split; [exact Hinit|].
  apply (fit_aborts_on_exception (fun q : Q => q) (fun q : Q => q) counting_draws
           _ 3 self [[-3; 1; 5; 9]%Q] [[29; 33; 37; 41]%Q] [13; 17; 21; 25]%Q
           [OptimizeResult.make [-3; 1; 5; 9]%Q (-3)%Q true]).
  - rewrite Hn. vm_compute. reflexivity.
  - repeat constructor.
  - reflexivity.
Defined.




(** ** get_coeffs *)






(** ** The likelihood, continued *)

Lemma py_slice_from_1_short {A : Type} (l : list A) (hi : Z) :
  len l <= hi -> py_slice l 1 hi = drop 1 l.
Proof.
  intros Hhi. unfold py_slice, slice_bound, len in *. cbv zeta.
  assert ((1 <? 0) = false) as -> by reflexivity.
  assert ((hi <? 0) = false) as -> by zbool.
  destruct l as [|x l]; [rewrite !drop_nil; apply take_nil|].
  replace (Z.to_nat (Z.min (Z.max 1 0) (Z.of_nat (length (x :: l))))) with 1%nat
    by (cbn [length]; lia).
  apply take_ge. rewrite length_drop. lia.
Qed.

Section CohortFacts.
Context {F : Type} `{Number F}.
Variable log : F -> F.

(** A cohort of at least two periods, up to the product with the counts. *)
Lemma cohort_loglike_unfold (a b : F) (active lost : list Z) :
  (2 <= length active)%nat ->
  cohort_loglike log a b (active, lost)
  = (died ← np_mul (map (fun i => log (P_rec a b i)) (seq 0 (length active - 1)))
              (py_slice lost 1 (len active));
     Ok (py_sum died + still_active_term log a b active (length active))%num).
Proof.
  intros Hn. unfold cohort_loglike, len.
  rewrite recursive_retention_stats_table. cbn [mbind result_bind].
  rewrite py_slice_table by lia.
  unfold np_log_list.
  rewrite <- (map_map (P_rec a b) Some), as_numbers_Some. cbn [mbind result_bind].
  rewrite map_map.
  replace (S (Z.to_nat (Z.of_nat (length active) - 2))) with (length active - 1)%nat by lia.
  destruct (np_mul _ _) as [died|e]; [|reflexivity]. cbn [mbind result_bind].
  rewrite table_getitem by lia. cbn [mbind result_bind as_number].
  rewrite (py_getitem_nth active _ 0) by (unfold len; lia).
  cbn [mbind result_bind]. unfold still_active_term.
  replace (Z.to_nat (Z.of_nat (length active) - 1 - 1)) with (length active - 2)%nat by lia.
  replace (Z.to_nat (Z.of_nat (length active) - 1)) with (length active - 1)%nat by lia.
  reflexivity.
Qed.

Lemma np_mul_broadcast (xs : list F) (c : Z) :
  (2 <= length xs)%nat ->
  np_mul xs [c] = np_mul xs (replicate (length xs) c).
Proof.
  intros Hlen. unfold np_mul.
  rewrite decide_False by (cbn; lia).
  rewrite decide_True by (rewrite length_replicate; reflexivity).
  destruct xs as [|x0 [|x1 xs]]; [cbn in Hlen; lia..|].
  f_equal. clear Hlen. generalize (x0 :: x1 :: xs). intros l.
  induction l as [|y l IH]; cbn; [reflexivity|]. rewrite IH. reflexivity.
Qed.

Lemma np_mul_mismatch (xs : list F) (ns : list Z) :
  length xs <> length ns -> length xs <> 1%nat -> length ns <> 1%nat ->
  np_mul xs ns = Raise "ValueError".
Proof.
  intros Hne Hx Hn. unfold np_mul. rewrite decide_False by exact Hne.
  destruct xs as [|x0 [|x1 xs]], ns as [|n0 [|n1 ns]]; cbn in *;
    try reflexivity; congruence.
Qed.

(** A cohort on which the evaluation of the cohort raises makes [_logp]
    raise. *)
Lemma logp_raises_of_cohort (exp : F -> F) (self : ShiftedBeta F)
    (alpha beta : list F) (name : string) (cohorts : list cohort) (val : cohort) :
  data self !! name = Some cohorts -> val ∈ cohorts ->
  (forall a b, exists e, cohort_loglike log a b val = Raise e) ->
  exists e, _logp exp log self alpha beta = Raise e.
Proof.
  intros Hname Hval Hraise.
  assert (Hloop : exists e,
    for_each (category_body exp log self alpha beta)
      (map_to_list (data self)) (of_int 0) = Raise e).
  { apply (for_each_Raise _ _ (name, cohorts));
      [apply elem_of_map_to_list; exact Hname|].
    intros acc. unfold category_body.
    destruct (dict_getitem (imap self) name) as [v|e]; [|exists e; reflexivity].
    cbn [mbind result_bind].
    destruct (combine exp alpha v) as [a|e]; [|exists e; reflexivity].
    cbn [mbind result_bind].
    destruct (combine exp beta v) as [b|e]; [|exists e; reflexivity].
    cbn [mbind result_bind].
    apply (for_each_Raise _ _ val Hval).
    intros acc'. unfold cohort_body.
    destruct (Hraise a b) as [e ->]. exists e. reflexivity. }
  destruct Hloop as [e He]. exists e. unfold _logp. rewrite He. reflexivity.
Qed.
End CohortFacts.

(** X13: of a cohort the likelihood reads the length of [active], its last
    entry, and the entries [1 .. length - 1] of [lost], nothing else: two
    well-formed cohorts that agree on these get the same value, whatever
    [lost[0]], the earlier [active] counts and any padding of [lost] beyond
    the length are. *)
Theorem cohort_reads_only_observed {F : Type} `{Number F} (log : F -> F)
    (a b : F) (active active' lost lost' : list Z) :
  cohort_ok (active, lost) = true ->
  cohort_ok (active', lost') = true ->
  length active' = length active ->
  nth (length active - 1) active' 0 = nth (length active - 1) active 0 ->
  (forall t : nat, (1 <= t < length active)%nat -> nth t lost' 0 = nth t lost 0) ->
  cohort_loglike log a b (active', lost') = cohort_loglike log a b (active, lost).
Proof.
  intros Hok Hok' Hlen Hlast Hlost.
  rewrite !cohort_loglike_term by assumption.
  unfold cohort_term, died_sum, still_active_term. rewrite Hlen, Hlast.
  do 2 f_equal. apply fold_left_ext_in.
  intros t Ht acc. apply list_elem_of_In, in_seq in Ht.
  rewrite Hlost by lia. reflexivity.
Qed.

Lemma cohort_reads_only_observed_witness :
  cohort_loglike (fun q : Q => q) 1%Q 2%Q ([5; 7; 60], [99; 10; 20; 30; 40])
  = cohort_loglike (fun q : Q => q) 1%Q 2%Q ([100; 80; 60], [0; 10; 20]).
Proof.
  apply (cohort_reads_only_observed (fun q : Q => q) 1%Q 2%Q
           [100; 80; 60] [5; 7; 60] [0; 10; 20] [99; 10; 20; 30; 40]);
    try reflexivity.
  intros [|[|[|t]]] Ht; cbn in Ht; try lia; reflexivity.
Defined.

(** X14: numpy broadcasting hides a [lost] series of length 2: for a cohort
    of three or more periods it is accepted without an error and the single
    count [lost[1]] is used for every period, exactly as if [lost] held
    that count throughout. *)
Theorem cohort_lost_broadcast {F : Type} `{Number F} (log : F -> F)
    (a b : F) (active : list Z) (l0 l1 : Z) :
  (3 <= length active)%nat ->
  cohort_loglike log a b (active, [l0; l1])
  = cohort_loglike log a b (active, replicate (length active) l1) /\
  exists v : F, cohort_loglike log a b (active, [l0; l1]) = Ok v.
Proof.
  intros Hn.
  assert (E : cohort_loglike log a b (active, [l0; l1])
              = cohort_loglike log a b (active, replicate (length active) l1)).
  { rewrite !cohort_loglike_unfold by lia. unfold len.
    rewrite py_slice_from_1_short by (unfold len; cbn [length]; lia).
    rewrite (py_slice_from_1 (replicate (length active) l1) (length active))
      by (rewrite length_replicate; lia).
    cbn [drop]. rewrite drop_replicate, take_replicate.
    rewrite np_mul_broadcast by (rewrite length_map, length_seq; lia).
    rewrite length_map, length_seq, Nat.min_id. reflexivity. }
  split; [exact E|]. rewrite E. eexists.
  apply cohort_loglike_term. unfold cohort_ok, len. cbn [fst snd].
  rewrite length_replicate. apply andb_true_intro. split; zbool.
Qed.

Lemma cohort_lost_broadcast_witness :
  cohort_loglike (fun q : Q => q) 1%Q 2%Q ([100; 80; 60; 50], [0; 7])
  = cohort_loglike (fun q : Q => q) 1%Q 2%Q ([100; 80; 60; 50], [7; 7; 7; 7]).
Proof.
  apply (cohort_lost_broadcast (fun q : Q => q) 1%Q 2%Q [100; 80; 60; 50] 0 7).
  cbn. lia.
Defined.

(** X15: any other [lost] series shorter than [active] is refused: for a
    cohort of three or more periods whose [lost] is shorter than [active]
    and not of length 2, the product of the logarithms with the counts is a
    [ValueError] (the shapes cannot be broadcast), and [_logp] on a dataset
    holding such a cohort raises instead of returning a value. *)
Theorem cohort_lost_too_short {F : Type} `{Number F} (exp log : F -> F)
    (self : ShiftedBeta F) (alpha beta : list F)
    (name : string) (cohorts : list cohort) (active lost : list Z) :
  (3 <= length active)%nat -> (length lost < length active)%nat ->
  length lost <> 2%nat ->
  data self !! name = Some cohorts -> (active, lost) ∈ cohorts ->
  (forall a b : F, cohort_loglike log a b (active, lost) = Raise "ValueError") /\
  exists e : exn, _logp exp log self alpha beta = Raise e.
Proof.
  intros Hn Hshort Hne Hname Hval.
  assert (Hraise : forall a b : F,
            cohort_loglike log a b (active, lost) = Raise "ValueError").
  { intros a b. rewrite cohort_loglike_unfold by lia.
    rewrite py_slice_from_1_short by (unfold len; lia).
    rewrite np_mul_mismatch; [reflexivity| | |];
      rewrite ?length_map, ?length_seq, ?length_drop; lia. }
  split; [exact Hraise|].
  apply (logp_raises_of_cohort log exp self alpha beta name cohorts (active, lost));
    [exact Hname|exact Hval|].
  intros a b. exists "ValueError". apply Hraise.
Qed.

Lemma cohort_lost_too_short_witness :
  cohort_loglike (fun q : Q => q) 1%Q 2%Q ([100; 80; 60; 50], [0; 20; 20])
  = Raise "ValueError".
Proof.
  apply (cohort_lost_too_short (fun q : Q => q) (fun q : Q => q)
           {| data := <["a" := [([100; 80; 60; 50], [0; 20; 20])]]> ∅;
              categories := ["a"]; n_cats := 1;
              imap := <["a" := [true]]> ∅; alpha := ∅; beta := ∅; opt := None |}
           [0%Q] [0%Q] "a" [([100; 80; 60; 50], [0; 20; 20])]
           [100; 80; 60; 50] [0; 20; 20]).
  - cbn. lia.
  - cbn. lia.
  - cbn. lia.
  - reflexivity.
  - apply list_elem_of_here.
Defined.

(** X16: a two-period cohort whose [lost] series has fewer than two entries
    is accepted without an error: the empty slice [lost[1:2]] broadcasts
    against the single logarithm to an empty product, so the cohort adds
    only its still-active term [log(S[1]) * active[1]]. *)
Theorem cohort_two_periods_no_lost {F : Type} `{Number F} (log : F -> F)
    (a b : F) (a0 a1 : Z) (lost : list Z) :
  (length lost <= 1)%nat ->
  cohort_loglike log a b ([a0; a1], lost)
  = Ok (of_int 0 + log (of_int 1 - a / (a + b)) * of_int a1)%num.
Proof.
  intros Hlost. rewrite cohort_loglike_unfold by (cbn; lia).
  rewrite py_slice_from_1_short by (unfold len; cbn [length]; lia).
  destruct lost as [|l0 [|l1 lost]]; [reflexivity|reflexivity|cbn in Hlost; lia].
Qed.

Lemma cohort_two_periods_no_lost_witness :
  cohort_loglike (fun q : Q => q) 1%Q 2%Q ([100; 80], [0])
  = Ok (inject_Z 0 + (inject_Z 1 - 1 / (1 + 2)) * inject_Z 80)%Q.
Proof.
  exact (cohort_two_periods_no_lost (fun q : Q => q) 1%Q 2%Q 100 80 [0]
           ltac:(cbn; lia)).
Defined.

(** ** The initial guesses *)

(** X17: for [restarts >= 0] the random initialization yields [restarts]
    guesses of [2 * n_cats] coefficients each; in exact arithmetic, with
    draws in [[0, 1)] as [numpy.random.random] makes them, every
    coefficient [4 * u - 3] lies in [[-3, 1)], so both signs occur among
    the possible starting values. *)
Theorem initial_guesses_range (rnd : nat -> Q) (restarts n : Z) :
  0 <= restarts -> 0 <= n ->
  (forall k : nat, (0 <= rnd k < 1)%Q) ->
  exists guesses : list (list Q),
    initial_guesses rnd restarts n = Ok guesses /\
    len guesses = restarts /\
    Forall (fun g => len g = 2 * n /\ Forall (fun c => (-3 <= c < 1)%Q) g) guesses.
Proof.
  intros Hr Hn Hrnd. unfold initial_guesses, np_random_random.
  assert ((restarts <? 0) = false) as -> by zbool.
  assert ((2 * n <? 0) = false) as -> by zbool.
  cbn [orb mbind result_bind]. eexists. split; [reflexivity|].
  split; [unfold len; rewrite !length_map, length_seq; lia|].
  rewrite Forall_forall. intros g Hg.
  apply list_elem_of_In, in_map_iff in Hg as (g0 & <- & Hg0).
  apply in_map_iff in Hg0 as (i & <- & _).
  split; [unfold len; rewrite !length_map, length_seq; lia|].
  rewrite Forall_forall. intros c Hc.
  apply list_elem_of_In, in_map_iff in Hc as (u & <- & Hu).
  apply in_map_iff in Hu as (j & <- & _).
  destruct (Hrnd (i * Z.to_nat (2 * n) + j)%nat) as [H0 H1].
  cbn [fsub fmul of_int Q_number].
  change (inject_Z 4) with 4%Q. change (inject_Z 3) with 3%Q. lra.
Qed.

Lemma initial_guesses_range_witness :
  exists guesses : list (list Q),
    initial_guesses (fun _ => 1 # 2)%Q 3 2 = Ok guesses /\ len guesses = 3.
Proof.
  destruct (initial_guesses_range (fun _ => 1 # 2)%Q 3 2)
    as (guesses & Hrun & Hlen & _); [lia | lia | |].
  - intros k. split; [discriminate|reflexivity].
  - exists guesses. split; assumption.
Defined.

(** ** When the kept restart is the one asked for *)

Lemma lowest_first_last (earlier : list (OptimizeResult.t Q)) :
  forall best r_last : OptimizeResult.t Q,
    (OptimizeResult.fun_ r_last < OptimizeResult.fun_ best)%Q ->
    Forall (fun r => (OptimizeResult.fun_ r_last < OptimizeResult.fun_ r)%Q) earlier ->
    lowest_first best (earlier ++ [r_last]) = r_last.
Proof.
  induction earlier as [|r earlier IH]; intros best r_last Hbest Hall.
  - cbn [app lowest_first].
    assert (E : fltb (OptimizeResult.fun_ r_last) (OptimizeResult.fun_ best) = true).
    { cbn [fltb Q_number]. apply Qlt_alt in Hbest. unfold Qcompare in *.
      rewrite Hbest. reflexivity. }
    rewrite E. reflexivity.
  - apply Forall_cons in Hall as [Hr Hall]. cbn [app lowest_first].
    destruct (fltb (OptimizeResult.fun_ r) (OptimizeResult.fun_ best));
      apply IH; assumption.
Qed.

(** X18: in exact arithmetic, when the last restart's objective value is
    strictly below that of every earlier restart, the restart [fit] keeps
    (the last one) is the one with the lowest objective value, first on
    ties.  A single restart is such a case. *)
Theorem fit_agrees_when_last_is_lowest (exp log : Q -> Q) (rnd : nat -> Q)
    (minimize : (list Q -> result Q) -> list Q -> result (OptimizeResult.t Q))
    (self : ShiftedBeta Q) (restarts : Z) (guesses : list (list Q))
    (r_first r_last : OptimizeResult.t Q)
    (rest earlier : list (OptimizeResult.t Q)) :
  initial_guesses rnd restarts (n_cats self) = Ok guesses ->
  Forall2 (fun g r => minimize (objective exp log self) g = Ok r)
    guesses (r_first :: rest) ->
  r_first :: rest = earlier ++ [r_last] ->
  Forall (fun r => (OptimizeResult.fun_ r_last < OptimizeResult.fun_ r)%Q) earlier ->
  opt (fit exp log rnd minimize restarts self).2
  = Some (OptimizeResult.x (lowest_first r_first rest)).
Proof.
  intros Hguesses Hruns Hsplit Hlow.
  assert (Hlast : last (r_first :: rest) = Some r_last)
    by (rewrite Hsplit; apply last_snoc).
  assert (Hbest : lowest_first r_first rest = r_last).
  { destruct earlier as [|r0 earlier'].
    - cbn in Hsplit. injection Hsplit as -> ->. reflexivity.
    - cbn in Hsplit. injection Hsplit as -> ->.
      apply Forall_cons in Hlow as [H0 Hlow].
      apply lowest_first_last; assumption. }
  rewrite Hbest.
  unfold fit, bind_ at 1, get. unfold bind_ at 1, lift. rewrite Hguesses.
  unfold bind_ at 1.
  rewrite <- (set_opt_opt self) at 1.
  rewrite (restart_loop_last exp log minimize self guesses _ Hruns), Hlast.
  unfold bind_ at 1, get. rewrite publish_loop_opt. reflexivity.
Qed.

(** Draws that shrink: the [k]-th one is [-k]; with them the objective
    values reported by [stays_put] fall from one restart to the next. *)
Lemma fit_agrees_when_last_is_lowest_witness :
  exists self : ShiftedBeta Q,
    __init__ two_categories = Ok self /\
    opt (fit (fun q => q) (fun q => q) (fun k => - inject_Z (Z.of_nat k))%Q
           stays_put 2 self).2
    = Some (OptimizeResult.x
              (lowest_first
                 (OptimizeResult.make [-3; -7; -11; -15]%Q (-3)%Q true)
                 [OptimizeResult.make [-19; -23; -27; -31]%Q (-19)%Q true])).
Proof.
  destruct (init_Ok Q two_categories) as (self & Hinit & _ & _ & Hn & _).
  exists self. split; [exact Hinit|].
  apply (fit_agrees_when_last_is_lowest (fun q : Q => q) (fun q : Q => q)
           (fun k => - inject_Z (Z.of_nat k))%Q stays_put self 2
           [[-3; -7; -11; -15]; [-19; -23; -27; -31]]%Q
           (OptimizeResult.make [-3; -7; -11; -15]%Q (-3)%Q true)
           (OptimizeResult.make [-19; -23; -27; -31]%Q (-19)%Q true)
           [OptimizeResult.make [-19; -23; -27; -31]%Q (-19)%Q true]
           [OptimizeResult.make [-3; -7; -11; -15]%Q (-3)%Q true]).
  - rewrite Hn. vm_compute. reflexivity.
  - repeat constructor.
  - reflexivity.
  - repeat constructor.
Defined.
